(** * ZenTXT: a shallow embedding of [main.py]

  The editor is a PyQt5 program: a [QPlainTextEdit] subclass with a
  line-number gutter ([CodeEditor], [LineNumberArea]) and a tabbed main
  window with file open/save ([MainWindow]).  The definitions below follow
  the methods of [main.py] one by one.  Values that the toolkit or the
  operating system supply (font metrics, the locale codec, [os.linesep],
  the file system, what a file dialog returns) are inputs of the model.
  The undo stack stays with the toolkit: [undo] takes the toolkit's undo as
  an argument. *)

From Stdlib Require Import ZArith Lia List Ascii String DecimalString Sorted.
From Stdlib.Strings Require Byte.
From Equations Require Import Equations.
From stdpp Require Import gmap strings list.

Local Open Scope Z_scope.

(** ** Text *)

(** A Python [str] is a sequence of Unicode code points. *)
Definition char := N.
Definition text := list char.

Definition LF : char := 10%N.
Definition CR : char := 13%N.
Definition TAB : char := 9%N.
Definition SPACE : char := 32%N.

(** An ASCII literal of the source as a [text]. *)
Definition lit (s : string) : text := map N_of_ascii (list_ascii_of_string s).

(** ** Python integers, [str] and truthiness *)

Module Py.

(** [max(a, b)] on ints. *)
Definition max (a b : Z) : Z := if a <? b then b else a.

(** The decimal digit [0..9] as a character. *)
Definition digit_char (d : Z) : char := (48 + Z.to_N d)%N.

(** [str(n)] for a non-negative int: the decimal digits, most significant
    first, no leading zero. *)
Equations? str_nonneg (n : Z) : text by wf (Z.to_nat n) lt :=
  str_nonneg n with Z_lt_dec n 10 := {
    | left _ => [digit_char n]
    | right _ => str_nonneg (n / 10) ++ [digit_char (n mod 10)] }.
Proof.
  assert (n / 10 < n) by (apply Z.div_lt; lia).
  assert (0 <= n / 10) by (apply Z.div_pos; lia). lia.
Qed.

(** [str(n)] on ints. *)
Definition str (n : Z) : text :=
  if n <? 0 then lit "-" ++ str_nonneg (- n) else str_nonneg n.

(** [len(s)]. *)
Definition len {A} (s : list A) : Z := Z.of_nat (length s).

(** The value of a decimal digit character, and [int(s)] on a string of
    digits: positional notation, against which [str] is checked. *)
Definition digit_val (c : char) : Z := Z.of_N c - 48.

Definition int_of_digits (s : text) : Z :=
  fold_left (fun acc c => 10 * acc + digit_val c) s 0.

(** Truthiness of an int ([if dy:]) and of a path ([if file_path:]). *)
Definition truthy_int (n : Z) : bool := negb (n =? 0).

Definition truthy_str (s : string) : bool :=
  match s with EmptyString => false | _ => true end.

Definition truthy_opt_str (s : option string) : bool :=
  match s with None => false | Some p => truthy_str p end.

End Py.

(** ** Toolkit values *)

Record QFontMetrics := {
  horizontalAdvance : char -> Z;   (* pixel advance of one character *)
  fm_height : Z
}.

Record QRect := { rx : Z; ry : Z; rwidth : Z; rheight : Z }.

Module Rect.
Definition left (r : QRect) : Z := rx r.
Definition top (r : QRect) : Z := ry r.
Definition right (r : QRect) : Z := rx r + rwidth r - 1.
Definition bottom (r : QRect) : Z := ry r + rheight r - 1.
Definition isNull (r : QRect) : bool := (rwidth r =? 0) && (rheight r =? 0).

(** [r.contains(s)] on rectangles of non-negative size: [s] lies inside
    [r], edges included; a null rectangle contains nothing and is
    contained in nothing. *)
Definition contains (r s : QRect) : bool :=
  negb (isNull r) && negb (isNull s)
  && (left r <=? left s) && (right s <=? right r)
  && (top r <=? top s) && (bottom s <=? bottom r).
End Rect.

(** Colours, as the source builds them: [QColor(Qt.yellow).lighter(5)]. *)
Inductive QColor :=
| Qt_yellow
| lighter (factor : Z) (c : QColor).

(** [Qt.Key_Tab]. *)
Definition Key_Tab : Z := 0x01000001.

Record QKeyEvent := { key : Z; modifiers : Z; key_text : text }.

(** ** The gutter width: the arithmetic of [CodeEditor.lineNumberAreaWidth] *)

Module Gutter.

(** The [while max_block_count >= 10] loop, on its two variables. *)
Equations? digits_loop (max_block_count digits : Z) : Z
  by wf (Z.to_nat max_block_count) lt :=
  digits_loop max_block_count digits with Z_ge_dec max_block_count 10 := {
    | left _ => digits_loop (max_block_count / 10) (digits + 1)
    | right _ => digits }.
Proof.
  assert (max_block_count / 10 < max_block_count) by (apply Z.div_lt; lia).
  assert (0 <= max_block_count / 10) by (apply Z.div_pos; lia). lia.
Qed.

(** The value of [digits] after the loop, from [self.blockCount()]. *)
Definition digit_count (blockCount : Z) : Z :=
  let digits := 1 in
  let max_block_count := Py.max 1 blockCount in
  digits_loop max_block_count digits.

(** The fixed margin of the gutter, in pixels. *)
Definition margin : Z := 3.

(** The pixel width of one digit: [fontMetrics().horizontalAdvance('9')]. *)
Definition digit_width (fm : QFontMetrics) : Z :=
  horizontalAdvance fm (N_of_ascii "9").

Definition lineNumberAreaWidth (fm : QFontMetrics) (blockCount : Z) : Z :=
  let digits := digit_count blockCount in
  let space := margin + digit_width fm * digits in
  space.

End Gutter.

(** ** The host: what the platform and the toolkit decide

    [open(path, 'r')] and [open(path, 'w')] use the locale's codec and
    [os.linesep]; [setPlainText] and [toPlainText] are the toolkit's
    conversions between a plain string and the characters of a document. *)

Record Host := {
  linesep : text;                             (* os.linesep *)
  decode : list Byte.byte -> option text;     (* None: UnicodeDecodeError *)
  encode : text -> option (list Byte.byte);   (* None: UnicodeEncodeError *)
  basename : string -> string;                (* os.path.basename *)
  plain_to_document : text -> text;           (* setPlainText *)
  document_to_plain : text -> text;           (* toPlainText *)
  widget_font_metrics : QFontMetrics;         (* of a new CodeEditor *)
  widget_viewport : QRect                     (* of a new CodeEditor *)
}.

(** ** Python text-mode newline handling (the default [newline=None]) *)

Module TextIO.

(** Reading: "\r\n" and a lone "\r" both become "\n". *)
Fixpoint universal_newlines (s : text) : text :=
  match s with
  | [] => []
  | c :: r =>
    if N.eqb c CR then
      match r with
      | c' :: r' =>
        if N.eqb c' LF then LF :: universal_newlines r'
        else LF :: universal_newlines r
      | [] => [LF]
      end
    else c :: universal_newlines r
  end.

(** Writing: every "\n" becomes [os.linesep]. *)
Definition write_newlines (linesep : text) (s : text) : text :=
  flat_map (fun c => if N.eqb c LF then linesep else [c]) s.

(** [file.read()] on the bytes of a file opened with ['r']. *)
Definition read (h : Host) (raw : list Byte.byte) : option text :=
  match decode h raw with
  | Some t => Some (universal_newlines t)
  | None => None
  end.

(** The bytes [file.write(s)] produces on a file opened with ['w']. *)
Definition written (h : Host) (s : text) : option (list Byte.byte) :=
  encode h (write_newlines (linesep h) s).

(** A text as lines: [join sep lines] is [sep.join(lines)]; a line proper
    holds neither a carriage return nor a line feed. *)
Fixpoint join (sep : text) (lines : list text) : text :=
  match lines with
  | [] => []
  | l :: rest =>
    match rest with
    | [] => l
    | _ :: _ => l ++ sep ++ join sep rest
    end
  end.

Definition line_char (c : char) : bool := negb (N.eqb c CR) && negb (N.eqb c LF).

Definition is_line (l : text) : bool := forallb line_char l.

End TextIO.

(** ** The editor widget: [CodeEditor] and its [LineNumberArea] *)

(** A text cursor: [anchor] and [position] are character offsets in the
    document; they differ when there is a selection. *)
Record QTextCursor := { anchor : nat; position : nat }.

Record ExtraSelection := {
  sel_background : QColor;
  sel_fullWidth : bool;          (* QTextFormat.FullWidthSelection *)
  sel_cursor : QTextCursor
}.

(** What the gutter widget was asked to do: [scroll(dx, dy)] shifts its
    rendered pixels, [update(x, y, w, h)] marks a rectangle for repaint. *)
Inductive PaintRequest :=
| Scroll (dx dy : Z)
| Update (x y w h : Z).

Record LineNumberArea := {
  geometry : QRect;
  requests : list PaintRequest   (* oldest first *)
}.

Record CodeEditor := {
  document : text;
  cursor : QTextCursor;
  readOnly : bool;
  fontMetrics : QFontMetrics;
  file_path : option string;
  extraSelections : list ExtraSelection;
  viewportMargins : Z * Z * Z * Z;
  viewport_rect : QRect;
  lineNumberArea : LineNumberArea
}.

Module Editor.

Definition set_document (d : text) (e : CodeEditor) : CodeEditor :=
  {| document := d; cursor := cursor e; readOnly := readOnly e;
     fontMetrics := fontMetrics e; file_path := file_path e;
     extraSelections := extraSelections e;
     viewportMargins := viewportMargins e;
     viewport_rect := viewport_rect e; lineNumberArea := lineNumberArea e |}.

Definition set_cursor (c : QTextCursor) (e : CodeEditor) : CodeEditor :=
  {| document := document e; cursor := c; readOnly := readOnly e;
     fontMetrics := fontMetrics e; file_path := file_path e;
     extraSelections := extraSelections e;
     viewportMargins := viewportMargins e;
     viewport_rect := viewport_rect e; lineNumberArea := lineNumberArea e |}.

Definition set_file_path (p : option string) (e : CodeEditor) : CodeEditor :=
  {| document := document e; cursor := cursor e; readOnly := readOnly e;
     fontMetrics := fontMetrics e; file_path := p;
     extraSelections := extraSelections e;
     viewportMargins := viewportMargins e;
     viewport_rect := viewport_rect e; lineNumberArea := lineNumberArea e |}.

Definition setExtraSelections (l : list ExtraSelection) (e : CodeEditor)
  : CodeEditor :=
  {| document := document e; cursor := cursor e; readOnly := readOnly e;
     fontMetrics := fontMetrics e; file_path := file_path e;
     extraSelections := l;
     viewportMargins := viewportMargins e;
     viewport_rect := viewport_rect e; lineNumberArea := lineNumberArea e |}.

Definition setViewportMargins (l t r b : Z) (e : CodeEditor) : CodeEditor :=
  {| document := document e; cursor := cursor e; readOnly := readOnly e;
     fontMetrics := fontMetrics e; file_path := file_path e;
     extraSelections := extraSelections e;
     viewportMargins := (l, t, r, b);
     viewport_rect := viewport_rect e; lineNumberArea := lineNumberArea e |}.

Definition set_lineNumberArea (a : LineNumberArea) (e : CodeEditor)
  : CodeEditor :=
  {| document := document e; cursor := cursor e; readOnly := readOnly e;
     fontMetrics := fontMetrics e; file_path := file_path e;
     extraSelections := extraSelections e;
     viewportMargins := viewportMargins e;
     viewport_rect := viewport_rect e; lineNumberArea := a |}.

(** *** Toolkit methods the source calls *)

Definition isReadOnly (e : CodeEditor) : bool := readOnly e.
Definition textCursor (e : CodeEditor) : QTextCursor := cursor e.

(** A document has one block per line: one more than its line feeds. *)
Definition blockCount (e : CodeEditor) : Z :=
  1 + Z.of_nat (length (filter (fun c => c = LF) (document e))).

Definition selectionStart (c : QTextCursor) : nat :=
  Nat.min (anchor c) (position c).
Definition selectionEnd (c : QTextCursor) : nat :=
  Nat.max (anchor c) (position c).
Definition hasSelection (c : QTextCursor) : bool :=
  negb (Nat.eqb (anchor c) (position c)).
Definition clearSelection (c : QTextCursor) : QTextCursor :=
  {| anchor := position c; position := position c |}.

(** The parts of a document around the selection of a cursor. *)
Definition before (c : QTextCursor) (doc : text) : text :=
  take (selectionStart c) doc.
Definition selected (c : QTextCursor) (doc : text) : text :=
  drop (selectionStart c) (take (selectionEnd c) doc).
Definition after (c : QTextCursor) (doc : text) : text :=
  drop (selectionEnd c) doc.

(** The same for the editor's own cursor and document. *)
Definition before_selection (e : CodeEditor) : text :=
  before (textCursor e) (document e).
Definition selectedText (e : CodeEditor) : text :=
  selected (textCursor e) (document e).
Definition after_selection (e : CodeEditor) : text :=
  after (textCursor e) (document e).

(** [lineNumberArea.scroll(dx, dy)] and [lineNumberArea.update(x, y, w, h)]. *)
Definition area_request (r : PaintRequest) (e : CodeEditor) : CodeEditor :=
  set_lineNumberArea
    {| geometry := geometry (lineNumberArea e);
       requests := requests (lineNumberArea e) ++ [r] |} e.

Definition area_width (e : CodeEditor) : Z :=
  rwidth (geometry (lineNumberArea e)).

Definition setGeometry (g : QRect) (e : CodeEditor) : CodeEditor :=
  set_lineNumberArea
    {| geometry := g; requests := requests (lineNumberArea e) |} e.

(** *** Methods of [CodeEditor] *)

Definition lineNumberAreaWidth (e : CodeEditor) : Z :=
  Gutter.lineNumberAreaWidth (fontMetrics e) (blockCount e).

Definition updateLineNumberAreaWidth (_ : Z) (e : CodeEditor) : CodeEditor :=
  setViewportMargins (lineNumberAreaWidth e) 0 0 0 e.

Definition updateLineNumberArea (rect : QRect) (dy : Z) (e : CodeEditor)
  : CodeEditor :=
  let e :=
    if Py.truthy_int dy then area_request (Scroll 0 dy) e
    else area_request (Update 0 (ry rect) (area_width e) (rheight rect)) e in
  if Rect.contains rect (viewport_rect e)
  then updateLineNumberAreaWidth 0 e
  else e.

(** [resizeEvent], after the base class has resized the widget; [cr] is
    [self.contentsRect()]. *)
Definition resizeEvent (cr : QRect) (e : CodeEditor) : CodeEditor :=
  setGeometry {| rx := Rect.left cr; ry := Rect.top cr;
                 rwidth := lineNumberAreaWidth e;
                 rheight := rheight cr |} e.

Definition highlightCurrentLine (e : CodeEditor) : CodeEditor :=
  let extra_selections : list ExtraSelection := [] in
  let extra_selections :=
    if negb (isReadOnly e) then
      let line_color := lighter 5 Qt_yellow in
      let selection :=
        {| sel_background := line_color;
           sel_fullWidth := true;
           sel_cursor := clearSelection (textCursor e) |} in
      extra_selections ++ [selection]
    else extra_selections in
  setExtraSelections extra_selections e.

(** The one selection [highlightCurrentLine] builds, for a cursor [c]. *)
Definition current_line_selection (c : QTextCursor) : ExtraSelection :=
  {| sel_background := lighter 5 Qt_yellow;
     sel_fullWidth := true;
     sel_cursor := clearSelection c |}.

(** *** Signals connected in [__init__] *)

Definition emit_blockCountChanged (old : Z) (e : CodeEditor) : CodeEditor :=
  if blockCount e =? old then e
  else updateLineNumberAreaWidth (blockCount e) e.

Definition emit_cursorPositionChanged (e : CodeEditor) : CodeEditor :=
  highlightCurrentLine e.

(** The text cursor is moved (by the user or by an edit). *)
Definition setTextCursor (c : QTextCursor) (e : CodeEditor) : CodeEditor :=
  emit_cursorPositionChanged (set_cursor c e).

(** [cursor.insertText(s)] for a [cursor] obtained from
    [self.textCursor()]: the selection of the cursor, if any, is replaced by
    [s], and the editor's cursor ends after the inserted text.  The edit is
    made on the document; the widget's read-only flag is not consulted. *)
Definition insertText (cursor : QTextCursor) (s : text) (e : CodeEditor)
  : CodeEditor :=
  let old_blocks := blockCount e in
  let after_insert := length (before cursor (document e) ++ s) in
  let doc := before cursor (document e) ++ s ++ after cursor (document e) in
  let e := set_document doc e in
  let e := emit_blockCountChanged old_blocks e in
  setTextCursor {| anchor := after_insert; position := after_insert |} e.

(** [setPlainText(content)] replaces the document; the cursor goes to the
    start, and the connected slots run. *)
Definition setPlainText (h : Host) (content : text) (e : CodeEditor)
  : CodeEditor :=
  let old_blocks := blockCount e in
  let e := set_document (plain_to_document h content) e in
  let e := emit_blockCountChanged old_blocks e in
  setTextCursor {| anchor := 0; position := 0 |} e.

Definition toPlainText (h : Host) (e : CodeEditor) : text :=
  document_to_plain h (document e).

(** What a key press results in: the subclass consumed it, or it was
    handed to [QPlainTextEdit.keyPressEvent]. *)
Inductive KeyOutcome :=
| Consumed (e : CodeEditor)
| PassedToBase (event : QKeyEvent) (e : CodeEditor).

Definition keyPressEvent (event : QKeyEvent) (e : CodeEditor) : KeyOutcome :=
  if key event =? Key_Tab then
    let cursor := textCursor e in
    Consumed (insertText cursor (lit "    ") e)
  else PassedToBase event e.

(** [CodeEditor()]: the constructor; [fm] and [viewport] come from the
    toolkit. *)
Definition init (fm : QFontMetrics) (viewport : QRect) : CodeEditor :=
  let e :=
    {| document := []; cursor := {| anchor := 0; position := 0 |};
       readOnly := false; fontMetrics := fm; file_path := None;
       extraSelections := []; viewportMargins := (0, 0, 0, 0);
       viewport_rect := viewport;
       lineNumberArea :=
         {| geometry := {| rx := 0; ry := 0; rwidth := 0; rheight := 0 |};
            requests := [] |} |} in
  let e := updateLineNumberAreaWidth 0 e in
  highlightCurrentLine e.

End Editor.

(** ** Exceptions, the file system and the state of the program *)

Inductive exn :=
| FileNotFoundError (path : string)
| PermissionError (path : string)
| UnicodeDecodeError
| UnicodeEncodeError
| AttributeError (attribute : string).   (* attribute access on [None] *)

Inductive Result (A : Type) :=
| Ok (a : A)
| Raise (e : exn).
Arguments Ok {A} a.
Arguments Raise {A} e.

(** Regular files by path, and the paths the operating system refuses to
    open for reading or for writing. *)
Record FileSystem := {
  files : gmap string (list Byte.byte);
  unreadable : gset string;
  unwritable : gset string
}.

Record Tab := { widget : CodeEditor; label : string }.

Record QTabWidget := {
  tabs : list Tab;
  currentIndex : Z          (* -1 when there is no tab *)
}.

Record MainWindow := { tab_widget : QTabWidget }.

Record World := { window : MainWindow; disk : FileSystem }.

(** Statements of a slot: they change the world and return or raise.  An
    exception keeps the changes made before it. *)
Definition M (A : Type) : Type := World -> Result A * World.

Definition ret {A} (a : A) : M A := fun w => (Ok a, w).

Definition raise {A} (e : exn) : M A := fun w => (Raise e, w).

Definition bind {A B} (m : M A) (f : A -> M B) : M B :=
  fun w =>
    match m w with
    | (Ok a, w') => f a w'
    | (Raise e, w') => (Raise e, w')
    end.

Notation "x <- m ;; k" := (bind m (fun x => k))
  (at level 100, m at next level, right associativity).
Notation "m ;;; k" := (bind m (fun _ => k))
  (at level 100, right associativity).

Definition get_tabs : M QTabWidget := fun w => (Ok (tab_widget (window w)), w).

Definition put_tabs (tw : QTabWidget) : M unit :=
  fun w => (Ok tt, {| window := {| tab_widget := tw |}; disk := disk w |}).

Definition get_disk : M FileSystem := fun w => (Ok (disk w), w).

Definition put_files (f : gmap string (list Byte.byte)) : M unit :=
  fun w => (Ok tt, {| window := window w;
                      disk := {| files := f;
                                 unreadable := unreadable (disk w);
                                 unwritable := unwritable (disk w) |} |}).

(** *** Files *)

Module File.

(** [open(path, 'r')]: the bytes of the file, or the error. *)
Definition open_r (path : string) : M (list Byte.byte) :=
  fs <- get_disk ;;
  match files fs !! path with
  | None => raise (FileNotFoundError path)
  | Some raw =>
    if decide (path ∈ unreadable fs) then raise (PermissionError path)
    else ret raw
  end.

(** [file.read()]. *)
Definition read (h : Host) (raw : list Byte.byte) : M text :=
  match TextIO.read h raw with
  | Some content => ret content
  | None => raise UnicodeDecodeError
  end.

(** [open(path, 'w')]: creates or truncates the file. *)
Definition open_w (path : string) : M unit :=
  fs <- get_disk ;;
  if decide (path ∈ unwritable fs) then raise (PermissionError path)
  else put_files (<[path := []]> (files fs)).

(** [file.write(s)], the file being closed right after. *)
Definition write (h : Host) (path : string) (s : text) : M unit :=
  match TextIO.written h s with
  | Some raw => fs <- get_disk ;; put_files (<[path := raw]> (files fs))
  | None => raise UnicodeEncodeError
  end.

End File.

(** *** [QTabWidget] *)

Module Tabs.

Definition count (tw : QTabWidget) : Z := Z.of_nat (length (tabs tw)).

Definition valid (index : Z) (tw : QTabWidget) : bool :=
  (0 <=? index) && (index <? count tw).

(** [addTab(widget, label)]: appended; the first tab becomes current. *)
Definition addTab (e : CodeEditor) (name : string) : M Z :=
  tw <- get_tabs ;;
  put_tabs {| tabs := tabs tw ++ [{| widget := e; label := name |}];
              currentIndex := if count tw =? 0 then 0 else currentIndex tw |} ;;;
  ret (count tw).

Definition setCurrentIndex (index : Z) : M unit :=
  tw <- get_tabs ;;
  if valid index tw
  then put_tabs {| tabs := tabs tw; currentIndex := index |}
  else ret tt.

(** [currentWidget()]: [None] when there is no tab. *)
Definition currentWidget : M (option CodeEditor) :=
  tw <- get_tabs ;;
  ret (if valid (currentIndex tw) tw
       then widget <$> tabs tw !! Z.to_nat (currentIndex tw)
       else None).

(** An assignment to an attribute of the current editor changes the editor
    held by the tab. *)
Definition update_current (f : CodeEditor -> CodeEditor) : M unit :=
  tw <- get_tabs ;;
  if valid (currentIndex tw) tw
  then put_tabs
         {| tabs := alter (fun t => {| widget := f (widget t);
                                       label := label t |})
                          (Z.to_nat (currentIndex tw)) (tabs tw);
            currentIndex := currentIndex tw |}
  else ret tt.

Definition setTabText (index : Z) (name : string) : M unit :=
  tw <- get_tabs ;;
  if valid index tw
  then put_tabs
         {| tabs := alter (fun t => {| widget := widget t; label := name |})
                          (Z.to_nat index) (tabs tw);
            currentIndex := currentIndex tw |}
  else ret tt.

(** [removeTab(index)]: an index out of range is ignored.  When the current
    tab goes, its right neighbour becomes current (the last tab when there
    is none); a tab before the current one shifts the current index. *)
Definition removeTab (index : Z) : M unit :=
  tw <- get_tabs ;;
  if valid index tw then
    let rest := delete (Z.to_nat index) (tabs tw) in
    let cur := currentIndex tw in
    let cur' :=
      if index <? cur then cur - 1
      else if index =? cur
           then (if index <? Z.of_nat (length rest) then index
                 else Z.of_nat (length rest) - 1)
           else cur in
    put_tabs {| tabs := rest; currentIndex := cur' |}
  else ret tt.

End Tabs.

(** ** The slots of [MainWindow]

    [chosen] is what the file dialog returned: the empty string when the
    user cancelled. *)

Module Window.

Definition new_file (h : Host) : M unit :=
  let new_editor := Editor.init (widget_font_metrics h) (widget_viewport h) in
  new_index <- Tabs.addTab new_editor "Untitled" ;;
  Tabs.setCurrentIndex new_index.

Definition open_file (h : Host) (chosen : string) : M unit :=
  let file_path := chosen in
  if Py.truthy_str file_path then
    raw <- File.open_r file_path ;;
    content <- File.read h raw ;;
    let new_editor :=
      Editor.init (widget_font_metrics h) (widget_viewport h) in
    let new_editor := Editor.setPlainText h content new_editor in
    let new_editor := Editor.set_file_path (Some file_path) new_editor in
    let file_name := basename h file_path in
    new_index <- Tabs.addTab new_editor file_name ;;
    Tabs.setCurrentIndex new_index
  else ret tt.

(** Reading an attribute or calling a method of [currentWidget()], which is
    [None] when every tab has been closed. *)
Definition attr {A} (name : string) (f : CodeEditor -> A)
  (o : option CodeEditor) : M A :=
  match o with
  | Some e => ret (f e)
  | None => raise (AttributeError name)
  end.

Definition _save_to_path (h : Host) (file_path : string) : M unit :=
  current_editor <- Tabs.currentWidget ;;
  File.open_w file_path ;;;
  s <- attr "toPlainText" (Editor.toPlainText h) current_editor ;;
  File.write h file_path s.

Definition save_file_as (h : Host) (chosen : string) : M unit :=
  current_editor <- Tabs.currentWidget ;;
  let file_path := chosen in
  if Py.truthy_str file_path then
    attr "file_path" (fun _ => tt) current_editor ;;;
    Tabs.update_current (Editor.set_file_path (Some file_path)) ;;;
    _save_to_path h file_path ;;;
    let file_name := basename h file_path in
    tw <- get_tabs ;;
    Tabs.setTabText (currentIndex tw) file_name
  else ret tt.

Definition save_file (h : Host) (chosen : string) : M unit :=
  current_editor <- Tabs.currentWidget ;;
  path <- attr "file_path" file_path current_editor ;;
  if Py.truthy_opt_str path then
    _save_to_path h (default EmptyString path)
  else save_file_as h chosen.

Definition close_tab (index : Z) : M unit :=
  Tabs.removeTab index.

(** The menu actions and the tab bar's close button, each connected to its
    slot; nothing between the slot and the event loop handles an
    exception. *)
Inductive Action :=
| New
| Open (chosen : string)
| Save (chosen : string)
| SaveAs (chosen : string)
| CloseTab (index : Z).

Definition trigger (h : Host) (a : Action) : M unit :=
  match a with
  | New => new_file h
  | Open chosen => open_file h chosen
  | Save chosen => save_file h chosen
  | SaveAs chosen => save_file_as h chosen
  | CloseTab index => close_tab index
  end.

(** [MainWindow()]: an empty tab widget, then [new_file]. *)
Definition init (h : Host) : M unit :=
  put_tabs {| tabs := []; currentIndex := -1 |} ;;;
  new_file h.

(** The user's actions, one after the other, up to the first exception,
    which nothing handles. *)
Fixpoint run (h : Host) (actions : list Action) : M unit :=
  match actions with
  | [] => ret tt
  | a :: rest => trigger h a ;;; run h rest
  end.

End Window.

(** ** Notions used to state the properties *)

Definition tabs_of (w : World) : list Tab := tabs (tab_widget (window w)).

(** The editor of the current tab, if there is one. *)
Definition current (w : World) : option CodeEditor :=
  match Tabs.currentWidget w with
  | (Ok o, _) => o
  | (Raise _, _) => None
  end.

(** The editor [open_file] builds for a file it has read. *)
Definition opened_editor (h : Host) (path : string) (content : text)
  : CodeEditor :=
  Editor.set_file_path (Some path)
    (Editor.setPlainText h content
       (Editor.init (widget_font_metrics h) (widget_viewport h))).

(** The world after [open_file] has read [content] from [path]: one more
    tab, which is the current one. *)
Definition opened (h : Host) (w : World) (path : string) (content : text)
  : World :=
  {| window := {| tab_widget :=
       {| tabs := tabs_of w ++ [{| widget := opened_editor h path content;
                                   label := basename h path |}];
          currentIndex := Tabs.count (tab_widget (window w)) |} |};
     disk := disk w |}.

(** The world after [path] has been written with the bytes [raw]. *)
Definition saved (w : World) (path : string) (raw : list Byte.byte) : World :=
  {| window := window w;
     disk := {| files := <[path := raw]> (files (disk w));
                unreadable := unreadable (disk w);
                unwritable := unwritable (disk w) |} |}.

(** The failure, if any, of reading [path] as text on a file system: the
    file is missing, may not be read, or does not decode. *)
Definition read_error (h : Host) (fs : FileSystem) (path : string)
  : option exn :=
  match files fs !! path with
  | None => Some (FileNotFoundError path)
  | Some raw =>
    if decide (path ∈ unreadable fs) then Some (PermissionError path)
    else match decode h raw with
         | None => Some UnicodeDecodeError
         | Some _ => None
         end
  end.

(** The failure, if any, of writing the text [s] to [path]: the file may not
    be written, or the text does not encode. *)
Definition write_error (h : Host) (fs : FileSystem) (path : string) (s : text)
  : option exn :=
  if decide (path ∈ unwritable fs) then Some (PermissionError path)
  else match encode h (TextIO.write_newlines (linesep h) s) with
       | None => Some UnicodeEncodeError
       | Some _ => None
       end.

(** ** A concrete host: POSIX line endings, Latin-1, identity conversions *)

Module Posix.

Definition latin1_decode (raw : list Byte.byte) : option text :=
  Some (map Byte.to_N raw).

Definition latin1_encode (s : text) : option (list Byte.byte) :=
  mapM Byte.of_N s.

(** [posixpath.basename]: what follows the last slash. *)
Fixpoint since_last_slash (acc p : string) : string :=
  match p with
  | EmptyString => acc
  | String c r =>
    if Ascii.eqb c "/" then since_last_slash EmptyString r
    else since_last_slash (acc ++ String c EmptyString)%string r
  end.

Definition posix_basename (p : string) : string :=
  since_last_slash EmptyString p.

Definition fixed_pitch (w h : Z) : QFontMetrics :=
  {| horizontalAdvance := fun _ => w; fm_height := h |}.

Definition host : Host :=
  {| linesep := [LF];
     decode := latin1_decode;
     encode := latin1_encode;
     basename := posix_basename;
     plain_to_document := fun s => s;
     document_to_plain := fun s => s;
     widget_font_metrics := fixed_pitch 9 17;
     widget_viewport := {| rx := 0; ry := 0; rwidth := 640; rheight := 480 |} |}.

Definition empty_world : World :=
  {| window := {| tab_widget := {| tabs := []; currentIndex := -1 |} |};
     disk := {| files := ∅; unreadable := ∅; unwritable := ∅ |} |}.

(** An editor as the constructor leaves it, then given a document, a cursor
    and a read-only flag. *)
Definition editor_with (doc : text) (c : QTextCursor) (ro : bool)
  : CodeEditor :=
  let e := Editor.init (fixed_pitch 9 17)
             {| rx := 0; ry := 0; rwidth := 640; rheight := 480 |} in
  {| document := doc; cursor := c; readOnly := ro;
     fontMetrics := fontMetrics e; file_path := file_path e;
     extraSelections := extraSelections e;
     viewportMargins := viewportMargins e;
     viewport_rect := viewport_rect e; lineNumberArea := lineNumberArea e |}.

Definition tab_event : QKeyEvent :=
  {| key := Key_Tab; modifiers := 0; key_text := [TAB] |}.

(** The five bytes of "a\r\nb\n", and the same text with bare line feeds. *)
Definition crlf_file : list Byte.byte :=
  [Byte.x61; Byte.x0d; Byte.x0a; Byte.x62; Byte.x0a].

Definition lf_file : list Byte.byte :=
  [Byte.x61; Byte.x0a; Byte.x62; Byte.x0a].

(** A window with two untitled tabs, and a disk holding one file. *)
Definition two_tabs : World :=
  snd (Window.run host [Window.New; Window.New] empty_world).

Definition notes (raw : list Byte.byte) : World :=
  saved empty_world "notes.txt" raw.

End Posix.

(** ** Painting the gutter: [LineNumberArea] and [lineNumberAreaPaintEvent]

    The toolkit lays the document out in blocks.  Of a block the paint loop
    reads [isVisible()] and [int(blockBoundingRect(block).height())]; of the
    layout, the first visible block and the [int] of its top in viewport
    coordinates. *)

Record QTextBlock := {
  isVisible : bool;
  block_height : Z          (* int(self.blockBoundingRect(block).height()) *)
}.

Record Layout := {
  blocks : list QTextBlock;
  firstVisibleBlock : nat;  (* blockNumber() of the first visible block *)
  contentTop : Z            (* int(... translated(contentOffset()).top()) *)
}.

(** What the painter is asked to draw.  [DrawText] is right-aligned, in
    white, in the line-number font. *)
Inductive PaintOp :=
| FillRect (r : QRect) (red green blue : Z)
| DrawText (x y w h : Z) (number : text).

Module Paint.

(** [LineNumberArea.sizeHint]: a [QSize], as width and height. *)
Definition sizeHint (e : CodeEditor) : Z * Z :=
  (Editor.lineNumberAreaWidth e, 0).

(** The height of [block]; an invalid block (past the last) has none. *)
Definition height_of (block : option QTextBlock) : Z :=
  match block with
  | Some b => block_height b
  | None => 0
  end.

(** The [while block.isValid() and top <= event.rect().bottom()] loop.
    [valid] holds the current block and those after it; it is empty when
    [block.isValid()] is false. *)
Fixpoint loop (rect : QRect) (width height : Z) (valid : list QTextBlock)
  (block_number top bottom : Z) : list PaintOp :=
  match valid with
  | [] => []
  | block :: next =>
    if top <=? Rect.bottom rect then
      let drawn :=
        if isVisible block && (bottom >=? Rect.top rect) then
          let number := Py.str (block_number + 1) in
          [DrawText 0 top width height number]
        else [] in
      let top := bottom in
      let bottom := top + height_of (head next) in
      let block_number := block_number + 1 in
      drawn ++ loop rect width height next block_number top bottom
    else []
  end.

(** [rect] is [event.rect()]. *)
Definition lineNumberAreaPaintEvent (l : Layout) (rect : QRect)
  (e : CodeEditor) : list PaintOp :=
  let block := drop (firstVisibleBlock l) (blocks l) in
  let block_number := Z.of_nat (firstVisibleBlock l) in
  let top := contentTop l in
  let bottom := top + height_of (head block) in
  FillRect rect 20 20 20
  :: loop rect (Editor.area_width e) (fm_height (fontMetrics e))
       block block_number top bottom.

(** [LineNumberArea.paintEvent] hands the event to the editor. *)
Definition paintEvent (l : Layout) (rect : QRect) (e : CodeEditor)
  : list PaintOp :=
  lineNumberAreaPaintEvent l rect e.

(** To state where a block is: the sum of a list of heights, the top of the
    block with number [k] (the heights of the blocks from the first visible
    one up to it, added to [contentTop]), and the text drawn for it. *)
Definition total (heights : list Z) : Z := foldr Z.add 0 heights.

Definition block_top (l : Layout) (k : nat) : Z :=
  contentTop l
  + total (map block_height
             (take (k - firstVisibleBlock l)
                   (drop (firstVisibleBlock l) (blocks l)))).

Definition line_number (l : Layout) (e : CodeEditor) (k : nat) : PaintOp :=
  DrawText 0 (block_top l k) (Editor.area_width e) (fm_height (fontMetrics e))
    (Py.str (Z.of_nat k + 1)).

End Paint.

(** ** What happens to an editor between its construction and its end

    The events the subclass reacts to: the cursor moves, the Tab key is
    pressed, [open_file] sets the text, the viewport asks for an update of
    the gutter, the widget is resized. *)

Inductive EditorEvent :=
| CursorMoved (c : QTextCursor)
| TabPressed (modifiers : Z)
| TextSet (content : text)
| ViewportUpdated (rect : QRect) (dy : Z)
| Resized (cr : QRect).

Module Session.

Definition handle (h : Host) (ev : EditorEvent) (e : CodeEditor)
  : CodeEditor :=
  match ev with
  | CursorMoved c => Editor.setTextCursor c e
  | TabPressed m =>
    match Editor.keyPressEvent
            {| key := Key_Tab; modifiers := m; key_text := [TAB] |} e with
    | Editor.Consumed e' => e'
    | Editor.PassedToBase _ e' => e'
    end
  | TextSet content => Editor.setPlainText h content e
  | ViewportUpdated rect dy => Editor.updateLineNumberArea rect dy e
  | Resized cr => Editor.resizeEvent cr e
  end.

(** The editor after a sequence of events, oldest first. *)
Definition after (h : Host) (events : list EditorEvent) (e : CodeEditor)
  : CodeEditor :=
  fold_left (fun e ev => handle h ev e) events e.

(** The pixels the gutter was asked to scroll by, in all. *)
Definition scrolled (rs : list PaintRequest) : Z * Z :=
  fold_left (fun acc r =>
               match r with
               | Scroll dx dy => (fst acc + dx, snd acc + dy)
               | Update _ _ _ _ => acc
               end) rs (0, 0).

(** The vertical scroll of a sequence of viewport updates. *)
Definition viewport_scroll (updates : list (QRect * Z)) : Z :=
  fold_left (fun acc u => acc + snd u) updates 0.

Definition after_updates (updates : list (QRect * Z)) (e : CodeEditor)
  : CodeEditor :=
  fold_left (fun e u => Editor.updateLineNumberArea (fst u) (snd u) e)
            updates e.

End Session.

(** ** [MainWindow.undo]

    [toolkit_undo] is [QPlainTextEdit.undo] on the editor's own history. *)

Definition undo (toolkit_undo : CodeEditor -> CodeEditor) : M unit :=
  current_editor <- Tabs.currentWidget ;;
  Window.attr "undo" (fun _ => tt) current_editor ;;;
  Tabs.update_current toolkit_undo.

(** ** More notions used to state the properties *)

(** A window is in order when an open tab is current whenever there is a
    tab at all. *)
Definition has_current (w : World) : Prop :=
  tabs_of w <> [] ->
  Tabs.valid (currentIndex (tab_widget (window w))) (tab_widget (window w))
  = true.

(** A statement keeps the window in order. *)
Definition keeps_current {A} (m : M A) : Prop :=
  forall w, has_current w -> has_current (snd (m w)).

(** The world after [new_file]. *)
Definition with_new_tab (h : Host) (w : World) : World :=
  {| window := {| tab_widget :=
       {| tabs := tabs_of w
                  ++ [{| widget := Editor.init (widget_font_metrics h)
                                     (widget_viewport h);
                         label := "Untitled" |}];
          currentIndex := Tabs.count (tab_widget (window w)) |} |};
     disk := disk w |}.

(** The world with the current tab changed by [f]. *)
Definition map_current (f : Tab -> Tab) (w : World) : World :=
  {| window := {| tab_widget :=
       {| tabs := alter f (Z.to_nat (currentIndex (tab_widget (window w))))
                    (tabs_of w);
          currentIndex := currentIndex (tab_widget (window w)) |} |};
     disk := disk w |}.

Definition with_editor (f : CodeEditor -> CodeEditor) (t : Tab) : Tab :=
  {| widget := f (widget t); label := label t |}.

Definition with_label (name : string) (t : Tab) : Tab :=
  {| widget := widget t; label := name |}.

(** The tab that is current, if there is one. *)
Definition current_tab (w : World) : option Tab :=
  if Tabs.valid (currentIndex (tab_widget (window w))) (tab_widget (window w))
  then tabs_of w !! Z.to_nat (currentIndex (tab_widget (window w)))
  else None.

(** A text without carriage returns. *)
Definition no_CR (s : text) : bool := forallb (fun c => negb (N.eqb c CR)) s.

Module Samples.

(** Three blocks of 17 pixels, the second one hidden, the first at -5. *)
Definition layout : Layout :=
  {| blocks := [{| isVisible := true; block_height := 17 |};
                {| isVisible := false; block_height := 17 |};
                {| isVisible := true; block_height := 17 |}];
     firstVisibleBlock := 0;
     contentTop := -5 |}.

Definition strip : QRect := {| rx := 0; ry := 0; rwidth := 30; rheight := 100 |}.

Definition editor : CodeEditor :=
  Posix.editor_with (lit "one") {| anchor := 0; position := 0 |} false.

(** A window whose one tab holds the text "hi" and the path "notes.txt". *)
Definition titled : World :=
  {| window := {| tab_widget :=
       {| tabs := [{| widget := Editor.set_file_path (Some "notes.txt")
                                  (Posix.editor_with (lit "hi")
                                     {| anchor := 0; position := 0 |} false);
                      label := "notes.txt" |}];
          currentIndex := 0 |} |};
     disk := disk Posix.empty_world |}.

(** The same with a character that Latin-1 cannot encode. *)
Definition unencodable : World :=
  {| window := {| tab_widget :=
       {| tabs := [{| widget := Editor.set_file_path (Some "notes.txt")
                                  (Posix.editor_with [8364%N]
                                     {| anchor := 0; position := 0 |} false);
                      label := "notes.txt" |}];
          currentIndex := 0 |} |};
     disk := disk (Posix.notes Posix.lf_file) |}.

(** The titled window over a disk that refuses to write "notes.txt". *)
Definition write_protected : World :=
  {| window := window titled;
     disk := {| files := ∅; unreadable := ∅;
                unwritable := {["notes.txt"%string]} |} |}.

(** The same window over a disk that refuses to write "locked.txt". *)
Definition locked : World :=
  {| window := window titled;
     disk := {| files := ∅; unreadable := ∅;
                unwritable := {["locked.txt"%string]} |} |}.

End Samples.

(** * Properties *)

(** ** Small runs of the definitions *)

Example str_12345 : Py.str 12345 = lit "12345".
Proof. reflexivity. Qed.

Example str_minus_70 : Py.str (-70) = lit "-70".
Proof. reflexivity. Qed.

Example str_as_printed :
  map (fun n => lit (NilZero.string_of_uint (N.to_uint (Z.to_N n))))
      [0; 7; 10; 99; 100; 4096]
  = map Py.str [0; 7; 10; 99; 100; 4096].
Proof. reflexivity. Qed.

Example digit_count_12345 : Gutter.digit_count 12345 = 5.
Proof. reflexivity. Qed.

Example digit_count_negative : Gutter.digit_count (-250) = 1.
Proof. reflexivity. Qed.

Example width_of_1000_lines :
  Gutter.lineNumberAreaWidth (Posix.fixed_pitch 9 17) 1000 = 39.
Proof. reflexivity. Qed.

Example universal_newlines_mixed :
  TextIO.universal_newlines [97; CR; LF; 98; CR; 99; LF; CR]%N
  = [97; LF; 98; LF; 99; LF; LF]%N.
Proof. reflexivity. Qed.

Example write_newlines_crlf :
  TextIO.write_newlines [CR; LF] [97; LF; 98]%N = [97; CR; LF; 98]%N.
Proof. reflexivity. Qed.

Example basename_of_path :
  Posix.posix_basename "/home/user/notes.txt" = "notes.txt"%string.
Proof. reflexivity. Qed.

Example new_editor_highlights_its_line :
  extraSelections (Editor.init (Posix.fixed_pitch 9 17)
                     {| rx := 0; ry := 0; rwidth := 640; rheight := 480 |})
  = [Editor.current_line_selection {| anchor := 0; position := 0 |}].
Proof. reflexivity. Qed.

Example new_editor_margin :
  viewportMargins (Editor.init (Posix.fixed_pitch 9 17)
                     {| rx := 0; ry := 0; rwidth := 640; rheight := 480 |})
  = (12, 0, 0, 0).
Proof. reflexivity. Qed.

(** ** Decimal digits *)

Section Digits.

Import Py Gutter.

Lemma str_nonneg_small n : n < 10 -> str_nonneg n = [digit_char n].
Proof.
  intros H. simp str_nonneg. destruct (Z_lt_dec n 10); [reflexivity | lia].
Qed.

Lemma str_nonneg_step n :
  10 <= n -> str_nonneg n = str_nonneg (n / 10) ++ [digit_char (n mod 10)].
Proof.
  intros H. rewrite (str_nonneg_equation_1 n).
  destruct (Z_lt_dec n 10); [lia | reflexivity].
Qed.

Lemma digits_loop_small m d : m < 10 -> digits_loop m d = d.
Proof.
  intros H. simp digits_loop. destruct (Z_ge_dec m 10); [lia | reflexivity].
Qed.

Lemma digits_loop_step m d :
  10 <= m -> digits_loop m d = digits_loop (m / 10) (d + 1).
Proof.
  intros H. rewrite (digits_loop_equation_1 m d).
  destruct (Z_ge_dec m 10); [reflexivity | lia].
Qed.

(** The loop adds to [digits] the number of characters of [str] less one. *)
Lemma digits_loop_len m d : digits_loop m d = d - 1 + len (str_nonneg m).
Proof.
  funelim (digits_loop m d).
  - rewrite H. rewrite (str_nonneg_step max_block_count) by lia.
    unfold len. rewrite length_app. simpl. lia.
  - rewrite str_nonneg_small by lia. unfold len. simpl. lia.
Qed.

(** [str] writes positional notation: read back, it gives the number. *)
Lemma int_of_digits_snoc s c :
  int_of_digits (s ++ [c]) = 10 * int_of_digits s + digit_val c.
Proof. unfold int_of_digits. rewrite fold_left_app. reflexivity. Qed.

Lemma digit_val_char d : 0 <= d -> digit_val (digit_char d) = d.
Proof. intros H. unfold digit_val, digit_char. lia. Qed.

Lemma int_of_digits_str n : 0 <= n -> int_of_digits (str_nonneg n) = n.
Proof.
  funelim (str_nonneg n); intros Hn.
  - unfold int_of_digits. simpl. rewrite digit_val_char by lia. lia.
  - rewrite int_of_digits_snoc, H by (apply Z.div_pos; lia).
    rewrite digit_val_char by (apply Z.mod_pos_bound; lia).
    pose proof (Z.div_mod n 10). lia.
Qed.

(** A number of [d] digits lies between [10^(d-1)] and [10^d]. *)
Lemma digits_loop_bounds m d :
  1 <= m -> 1 <= d ->
  d <= digits_loop m d /\
  10 ^ (digits_loop m d - d) <= m < 10 ^ (digits_loop m d - d + 1).
Proof.
  funelim (digits_loop m d); intros Hm Hd.
  - assert (Hq : 1 <= max_block_count / 10)
      by (apply Z.div_le_lower_bound; lia).
    destruct (H Hq ltac:(lia)) as (Hle & Hlo & Hhi).
    set (k := digits_loop (max_block_count / 10) (digits + 1)) in *.
    replace (k - digits) with (k - (digits + 1) + 1) by lia.
    split; [lia |].
    set (j := k - (digits + 1)) in *.
    assert (10 ^ (j + 1 + 1) = 10 * 10 ^ (j + 1))
      by (rewrite (Z.pow_add_r 10 (j + 1) 1) by lia; lia).
    assert (10 ^ (j + 1) = 10 * 10 ^ j)
      by (rewrite (Z.pow_add_r 10 j 1) by lia; lia).
    pose proof (Z.div_mod max_block_count 10 ltac:(lia)).
    pose proof (Z.mod_pos_bound max_block_count 10 ltac:(lia)).
    lia.
  - split; [lia |]. replace (digits - digits) with 0 by lia. simpl. lia.
Qed.

Lemma py_max_spec a b : Py.max a b = Z.max a b.
Proof. unfold Py.max. destruct (Z.ltb_spec a b); lia. Qed.

Lemma digit_count_bounds n :
  1 <= digit_count n /\
  10 ^ (digit_count n - 1) <= Z.max 1 n < 10 ^ digit_count n.
Proof.
  unfold digit_count. rewrite py_max_spec.
  destruct (digits_loop_bounds (Z.max 1 n) 1) as (H1 & H2 & H3); [lia | lia |].
  split; [lia |]. split; [exact H2 |].
  replace (digits_loop (Z.max 1 n) 1 - 1 + 1) with (digits_loop (Z.max 1 n) 1)
    in H3 by lia.
  exact H3.
Qed.

Lemma digit_count_mono n1 n2 : n1 <= n2 -> digit_count n1 <= digit_count n2.
Proof.
  intros Hle.
  destruct (digit_count_bounds n1) as (H1 & Hlo1 & _).
  destruct (digit_count_bounds n2) as (H2 & _ & Hhi2).
  destruct (Z_le_gt_dec (digit_count n1) (digit_count n2)) as [|Hgt]; [assumption |].
  exfalso.
  assert (10 ^ digit_count n2 <= 10 ^ (digit_count n1 - 1))
    by (apply Z.pow_le_mono_r; lia).
  lia.
Qed.

Lemma digit_count_len n : 1 <= n -> digit_count n = len (str n).
Proof.
  intros Hn. unfold digit_count, str.
  rewrite py_max_spec, Z.max_r by lia.
  destruct (Z.ltb_spec n 0); [lia |].
  rewrite digits_loop_len. lia.
Qed.

End Digits.

(** ** The gutter width *)

Section GutterWidth.

Import Gutter.

Variable fm : QFontMetrics.

(** C1. For every block count [N >= 1], [lineNumberAreaWidth] returns the
    fixed margin plus the pixel width of one digit times the digit count of
    [N], and that digit count is [len(str(N))]; for [N] in 1, 9, 10, 99, 100
    the digit count is 1, 1, 2, 2, 3. *)
Theorem lineNumberAreaWidth_digit_count (N : Z) :
  1 <= N ->
  lineNumberAreaWidth fm N = margin + digit_width fm * digit_count N
  /\ digit_count N = Py.len (Py.str N)
  /\ margin = 3
  /\ map digit_count [1; 9; 10; 99; 100] = [1; 1; 2; 2; 3]
  /\ map (fun n => Py.len (Py.str n)) [1; 9; 10; 99; 100] = [1; 1; 2; 2; 3].
Proof.
  intros HN. split; [reflexivity |].
  split; [apply digit_count_len; exact HN |].
  split; [reflexivity |].
  split; reflexivity.
Qed.

(** C5. With a block count of zero the digit count is still 1, as for a block
    count of 1, so the width is the margin plus one digit width. *)
Theorem lineNumberAreaWidth_zero_blocks :
  digit_count 0 = 1
  /\ 1 <= digit_count 0
  /\ lineNumberAreaWidth fm 0 = lineNumberAreaWidth fm 1
  /\ lineNumberAreaWidth fm 0 = margin + digit_width fm * 1
  /\ margin + digit_width fm <= lineNumberAreaWidth fm 0.
Proof.
  assert (H0 : digit_count 0 = 1) by reflexivity.
  assert (H1 : digit_count 1 = 1) by reflexivity.
  unfold lineNumberAreaWidth. cbv zeta. rewrite H0, H1.
  repeat split; lia.
Qed.

(** C6. With the same font metrics (a digit has a non-negative pixel width),
    the gutter width does not decrease when the block count grows. *)
Theorem lineNumberAreaWidth_monotone (N1 N2 : Z) :
  0 <= digit_width fm ->
  N1 <= N2 ->
  lineNumberAreaWidth fm N1 <= lineNumberAreaWidth fm N2.
Proof.
  intros Hw Hle. unfold lineNumberAreaWidth. cbv zeta.
  pose proof (digit_count_mono N1 N2 Hle).
  apply Z.add_le_mono_l. apply Z.mul_le_mono_nonneg_l; assumption.
Qed.

End GutterWidth.

Lemma lineNumberAreaWidth_digit_count_witness :
  1 <= 100 /\
  Gutter.lineNumberAreaWidth (Posix.fixed_pitch 9 17) 100
  = Gutter.margin + Gutter.digit_width (Posix.fixed_pitch 9 17)
                    * Gutter.digit_count 100.
Proof.
  split; [lia |].
  apply (lineNumberAreaWidth_digit_count (Posix.fixed_pitch 9 17) 100). lia.
Defined.

Lemma lineNumberAreaWidth_monotone_witness :
  0 <= Gutter.digit_width (Posix.fixed_pitch 9 17) /\
  99 <= 100 /\
  Gutter.lineNumberAreaWidth (Posix.fixed_pitch 9 17) 99
  <= Gutter.lineNumberAreaWidth (Posix.fixed_pitch 9 17) 100.
Proof.
  assert (Hw : 0 <= Gutter.digit_width (Posix.fixed_pitch 9 17))
    by (vm_compute; discriminate).
  assert (Hn : 99 <= 100) by lia.
  split; [exact Hw |]. split; [exact Hn |].
  exact (lineNumberAreaWidth_monotone (Posix.fixed_pitch 9 17) 99 100 Hw Hn).
Defined.

(** ** The editor widget *)

Section EditorFacts.

Import Editor.

Lemma emit_blockCountChanged_document old e :
  document (emit_blockCountChanged old e) = document e.
Proof. unfold emit_blockCountChanged. destruct (_ =? _); reflexivity. Qed.

Lemma emit_blockCountChanged_readOnly old e :
  readOnly (emit_blockCountChanged old e) = readOnly e.
Proof. unfold emit_blockCountChanged. destruct (_ =? _); reflexivity. Qed.

Lemma insertText_document s e :
  document (insertText (textCursor e) s e)
  = before_selection e ++ s ++ after_selection e.
Proof.
  unfold insertText. cbv zeta. unfold setTextCursor, emit_cursorPositionChanged.
  simpl. rewrite emit_blockCountChanged_document. reflexivity.
Qed.

Lemma insertText_cursor s e :
  cursor (insertText (textCursor e) s e)
  = {| anchor := length (before_selection e ++ s);
       position := length (before_selection e ++ s) |}.
Proof. reflexivity. Qed.

(** The document is what precedes the selection, the selection, and what
    follows it. *)
Lemma document_split e :
  document e = before_selection e ++ selectedText e ++ after_selection e.
Proof.
  unfold before_selection, selectedText, after_selection.
  unfold before, selected, after, textCursor.
  set (a := selectionStart (cursor e)). set (b := selectionEnd (cursor e)).
  assert (Hab : (a <= b)%nat) by (unfold a, b, selectionStart, selectionEnd; lia).
  rewrite <- (take_drop b (document e)) at 1.
  rewrite app_assoc. f_equal.
  rewrite <- (take_drop a (take b (document e))) at 1.
  f_equal. rewrite take_take. f_equal. lia.
Qed.

(** C7. On a viewport update, a non-zero [dy] scrolls the gutter by exactly
    [(0, dy)]; otherwise the rectangle of full gutter width at the event
    rectangle's vertical extent is marked for repaint.  Nothing else is asked
    of the gutter. *)
Theorem updateLineNumberArea_gutter (rect : QRect) (dy : Z) (e : CodeEditor) :
  requests (lineNumberArea (updateLineNumberArea rect dy e))
  = requests (lineNumberArea e)
    ++ [if dy =? 0
        then Update 0 (ry rect) (area_width e) (rheight rect)
        else Scroll 0 dy]
  /\ geometry (lineNumberArea (updateLineNumberArea rect dy e))
     = geometry (lineNumberArea e).
Proof.
  unfold updateLineNumberArea, Py.truthy_int.
  destruct (dy =? 0); simpl;
    match goal with |- context [Rect.contains ?r ?v] =>
      destruct (Rect.contains r v) end; split; reflexivity.
Qed.

(** C4. After a cursor movement the extra selections are those of
    [highlightCurrentLine]: at most one, none when the editor is read-only,
    whatever was installed before. *)
Theorem highlightCurrentLine_at_most_one
  (c : QTextCursor) (previous : list ExtraSelection) (e : CodeEditor) :
  extraSelections (setTextCursor c e)
  = (if isReadOnly e then [] else [current_line_selection c])
  /\ (length (extraSelections (setTextCursor c e)) <= 1)%nat
  /\ extraSelections (highlightCurrentLine (setExtraSelections previous e))
     = extraSelections (highlightCurrentLine e)
  /\ (length (extraSelections (highlightCurrentLine e)) <= 1)%nat
  /\ extraSelections (highlightCurrentLine e)
     = (if isReadOnly e then [] else [current_line_selection (textCursor e)]).
Proof.
  unfold setTextCursor, emit_cursorPositionChanged, highlightCurrentLine,
    isReadOnly, textCursor, current_line_selection.
  simpl. destruct (readOnly e); simpl; repeat split; lia.
Qed.

Lemma four_spaces : lit "    " = [SPACE; SPACE; SPACE; SPACE].
Proof. reflexivity. Qed.

Lemma count_tabs_app (s t : text) :
  length (filter (fun c => c = TAB) (s ++ t))
  = (length (filter (fun c => c = TAB) s)
     + length (filter (fun c => c = TAB) t))%nat.
Proof. rewrite filter_app, length_app. reflexivity. Qed.

(** A key other than Tab goes to the base class, the editor untouched. *)
Lemma keyPressEvent_other event e :
  key event <> Key_Tab -> keyPressEvent event e = PassedToBase event e.
Proof.
  intros H. unfold keyPressEvent. destruct (Z.eqb_spec (key event) Key_Tab);
    [contradiction | reflexivity].
Qed.

(** Without a selection the cursor is a single offset [p], and the insertion
    happens there. *)
Lemma insertText_no_selection s e :
  hasSelection (cursor e) = false ->
  document (insertText (textCursor e) s e)
  = take (position (cursor e)) (document e) ++ s
    ++ drop (position (cursor e)) (document e).
Proof.
  intros H. rewrite insertText_document.
  unfold before_selection, after_selection, before, after, textCursor.
  unfold selectionStart, selectionEnd.
  unfold hasSelection in H. apply negb_false_iff, Nat.eqb_eq in H.
  rewrite H, Nat.min_id, Nat.max_id. reflexivity.
Qed.

(** C3. A Tab key press is consumed by the editor, never handed to the base
    class; the document becomes the text before the cursor's selection, four
    literal spaces, and the text after it; no tab character is added; the
    cursor ends right after the four spaces. *)
Theorem keyPressEvent_tab (event : QKeyEvent) (e : CodeEditor) :
  key event = Key_Tab ->
  exists e',
    keyPressEvent event e = Consumed e'
    /\ (forall event' e'', keyPressEvent event e <> PassedToBase event' e'')
    /\ document e = before_selection e ++ selectedText e ++ after_selection e
    /\ document e'
       = before_selection e ++ [SPACE; SPACE; SPACE; SPACE] ++ after_selection e
    /\ length (filter (fun c => c = TAB) (document e'))
       = length (filter (fun c => c = TAB)
                        (before_selection e ++ after_selection e))
    /\ position (cursor e') = (length (before_selection e ++ lit "    "))
    /\ anchor (cursor e') = position (cursor e').
Proof.
  intros Hkey. exists (insertText (textCursor e) (lit "    ") e).
  assert (Hrun : keyPressEvent event e
                 = Consumed (insertText (textCursor e) (lit "    ") e)).
  { unfold keyPressEvent. rewrite Hkey, Z.eqb_refl. reflexivity. }
  split; [exact Hrun |].
  split; [intros event' e''; rewrite Hrun; discriminate |].
  split; [apply document_split |].
  split; [rewrite insertText_document, four_spaces; reflexivity |].
  split.
  { rewrite insertText_document, !count_tabs_app. reflexivity. }
  rewrite insertText_cursor. simpl. split; reflexivity.
Qed.

(** C10. On a read-only editor a Tab key press is consumed all the same and
    edits the document: the selection is replaced by four spaces, as on a
    writable editor.  The text then differs from the old one, except when
    the selected text was itself four spaces. *)
Theorem keyPressEvent_tab_read_only (event : QKeyEvent) (e : CodeEditor) :
  key event = Key_Tab ->
  isReadOnly e = true ->
  exists e',
    keyPressEvent event e = Consumed e'
    /\ isReadOnly e' = true
    /\ document e' = before_selection e ++ lit "    " ++ after_selection e
    /\ Py.len (document e') + Py.len (selectedText e)
       = Py.len (document e) + 4
    /\ (document e' = document e <-> selectedText e = lit "    ").
Proof.
  intros Hkey Hro. exists (insertText (textCursor e) (lit "    ") e).
  split; [unfold keyPressEvent; rewrite Hkey, Z.eqb_refl; reflexivity |].
  split.
  { unfold insertText, isReadOnly in *. cbv zeta.
    unfold setTextCursor, emit_cursorPositionChanged. simpl.
    rewrite emit_blockCountChanged_readOnly. exact Hro. }
  split; [apply insertText_document |].
  split.
  { rewrite insertText_document, (document_split e) at 1.
    unfold Py.len. rewrite !length_app. simpl. lia. }
  rewrite insertText_document, (document_split e) at 1.
  split; intros H.
  - apply app_inv_head, app_inv_tail in H. symmetry. exact H.
  - rewrite H. reflexivity.
Qed.

End EditorFacts.

Lemma keyPressEvent_tab_witness :
  key Posix.tab_event = Key_Tab /\
  exists e',
    Editor.keyPressEvent Posix.tab_event
      (Posix.editor_with (lit "ab") {| anchor := 1; position := 1 |} false)
    = Editor.Consumed e'
    /\ document e' = lit "a    b".
Proof.
  split; [reflexivity |].
  destruct (keyPressEvent_tab Posix.tab_event
              (Posix.editor_with (lit "ab") {| anchor := 1; position := 1 |}
                 false) eq_refl)
    as (e' & Hrun & _ & _ & Hdoc & _).
  exists e'. split; [exact Hrun | exact Hdoc].
Defined.

Lemma keyPressEvent_tab_read_only_witness :
  key Posix.tab_event = Key_Tab /\
  Editor.isReadOnly
    (Posix.editor_with (lit "ab") {| anchor := 1; position := 1 |} true)
  = true /\
  exists e',
    Editor.keyPressEvent Posix.tab_event
      (Posix.editor_with (lit "ab") {| anchor := 1; position := 1 |} true)
    = Editor.Consumed e'
    /\ document e' = lit "a    b".
Proof.
  split; [reflexivity |]. split; [reflexivity |].
  destruct (keyPressEvent_tab_read_only Posix.tab_event
              (Posix.editor_with (lit "ab") {| anchor := 1; position := 1 |}
                 true) eq_refl eq_refl)
    as (e' & Hrun & _ & Hdoc & _).
  exists e'. split; [exact Hrun | exact Hdoc].
Defined.

(** ** Newline translation of text-mode files *)

Section Newlines.

Import TextIO.

Lemma line_char_spec c : line_char c = true <-> c <> CR /\ c <> LF.
Proof.
  unfold line_char. rewrite andb_true_iff, !negb_true_iff, !N.eqb_neq.
  reflexivity.
Qed.

Lemma universal_newlines_LF s :
  universal_newlines (LF :: s) = LF :: universal_newlines s.
Proof. reflexivity. Qed.

Lemma universal_newlines_CRLF s :
  universal_newlines (CR :: LF :: s) = LF :: universal_newlines s.
Proof. reflexivity. Qed.

Lemma universal_newlines_line l s :
  is_line l = true ->
  universal_newlines (l ++ s) = l ++ universal_newlines s.
Proof.
  induction l as [|c l IH]; intros Hl; [reflexivity |].
  simpl in Hl. apply andb_true_iff in Hl as [Hc Hl].
  apply line_char_spec in Hc as [Hcr _].
  change ((c :: l) ++ s) with (c :: (l ++ s)).
  cbn [universal_newlines].
  destruct (N.eqb_spec c CR) as [|_]; [contradiction |].
  rewrite IH by exact Hl. reflexivity.
Qed.

Lemma universal_newlines_sep sep s :
  sep = [LF] \/ sep = [CR; LF] ->
  universal_newlines (sep ++ s) = LF :: universal_newlines s.
Proof. intros [-> | ->]; reflexivity. Qed.

Lemma write_newlines_app sep s t :
  write_newlines sep (s ++ t) = write_newlines sep s ++ write_newlines sep t.
Proof. unfold write_newlines. apply flat_map_app. Qed.

Lemma write_newlines_line sep l :
  is_line l = true -> write_newlines sep l = l.
Proof.
  induction l as [|c l IH]; intros Hl; [reflexivity |].
  simpl in Hl. apply andb_true_iff in Hl as [Hc Hl].
  apply line_char_spec in Hc as [_ Hlf].
  unfold write_newlines in *. simpl.
  destruct (N.eqb_spec c LF) as [|_]; [contradiction |].
  rewrite IH by exact Hl. reflexivity.
Qed.

Lemma write_newlines_LF sep s :
  write_newlines sep (LF :: s) = sep ++ write_newlines sep s.
Proof. reflexivity. Qed.

(** Read: the line separators of the file become single line feeds. *)
Lemma universal_newlines_join sep lines :
  sep = [LF] \/ sep = [CR; LF] ->
  forallb is_line lines = true ->
  universal_newlines (join sep lines) = join [LF] lines.
Proof.
  intros Hsep. induction lines as [|l rest IH]; intros Hl; [reflexivity |].
  simpl in Hl. apply andb_true_iff in Hl as [Hl Hrest].
  destruct rest as [|l' rest'].
  - simpl. rewrite <- (app_nil_r l) at 1.
    rewrite universal_newlines_line by exact Hl. simpl. apply app_nil_r.
  - change (join sep (l :: l' :: rest'))
      with (l ++ sep ++ join sep (l' :: rest')).
    change (join [LF] (l :: l' :: rest'))
      with (l ++ [LF] ++ join [LF] (l' :: rest')).
    rewrite universal_newlines_line by exact Hl.
    rewrite universal_newlines_sep by exact Hsep.
    rewrite IH by exact Hrest. reflexivity.
Qed.

(** Write: the line feeds become the platform's separator again. *)
Lemma write_newlines_join sep lines :
  forallb is_line lines = true ->
  write_newlines sep (join [LF] lines) = join sep lines.
Proof.
  induction lines as [|l rest IH]; intros Hl; [reflexivity |].
  simpl in Hl. apply andb_true_iff in Hl as [Hl Hrest].
  destruct rest as [|l' rest'].
  - simpl. apply write_newlines_line. exact Hl.
  - change (join sep (l :: l' :: rest'))
      with (l ++ sep ++ join sep (l' :: rest')).
    change (join [LF] (l :: l' :: rest'))
      with (l ++ LF :: join [LF] (l' :: rest')).
    rewrite write_newlines_app, write_newlines_line by exact Hl.
    rewrite write_newlines_LF, IH by exact Hrest. reflexivity.
Qed.

(** What was read from a file of lines is written back as it was. *)
Lemma newline_round_trip sep lines :
  sep = [LF] \/ sep = [CR; LF] ->
  forallb is_line lines = true ->
  write_newlines sep (universal_newlines (join sep lines)) = join sep lines.
Proof.
  intros Hsep Hl.
  rewrite universal_newlines_join, write_newlines_join by assumption.
  reflexivity.
Qed.

End Newlines.

(** ** The main window: tabs and files *)

Section MonadFacts.

Context {A B : Type}.

Lemma bind_ok (m : M A) (f : A -> M B) w a w' :
  m w = (Ok a, w') -> bind m f w = f a w'.
Proof. intros H. unfold bind. rewrite H. reflexivity. Qed.

Lemma bind_raise (m : M A) (f : A -> M B) w e w' :
  m w = (Raise e, w') -> bind m f w = (Raise e, w').
Proof. intros H. unfold bind. rewrite H. reflexivity. Qed.

End MonadFacts.

Section WindowFacts.

Import Window.

Variable h : Host.

Lemma valid_spec index tw :
  Tabs.valid index tw = true <-> 0 <= index < Tabs.count tw.
Proof.
  unfold Tabs.valid. rewrite andb_true_iff, Z.leb_le, Z.ltb_lt. reflexivity.
Qed.

Lemma currentWidget_current w : Tabs.currentWidget w = (Ok (current w), w).
Proof. reflexivity. Qed.

Lemma get_disk_run w : get_disk w = (Ok (disk w), w).
Proof. reflexivity. Qed.

Lemma get_tabs_run w : get_tabs w = (Ok (tab_widget (window w)), w).
Proof. reflexivity. Qed.

Lemma open_r_ok w path raw :
  files (disk w) !! path = Some raw -> path ∉ unreadable (disk w) ->
  File.open_r path w = (Ok raw, w).
Proof.
  intros Hf Hr. unfold File.open_r.
  rewrite (bind_ok _ _ _ _ _ (get_disk_run w)), Hf.
  destruct (decide (path ∈ unreadable (disk w))); [contradiction | reflexivity].
Qed.

Lemma open_r_missing w path :
  files (disk w) !! path = None ->
  File.open_r path w = (Raise (FileNotFoundError path), w).
Proof.
  intros Hf. unfold File.open_r.
  rewrite (bind_ok _ _ _ _ _ (get_disk_run w)), Hf. reflexivity.
Qed.

Lemma open_r_denied w path raw :
  files (disk w) !! path = Some raw -> path ∈ unreadable (disk w) ->
  File.open_r path w = (Raise (PermissionError path), w).
Proof.
  intros Hf Hr. unfold File.open_r.
  rewrite (bind_ok _ _ _ _ _ (get_disk_run w)), Hf.
  destruct (decide (path ∈ unreadable (disk w))); [reflexivity | contradiction].
Qed.

Lemma open_w_ok path w :
  path ∉ unwritable (disk w) ->
  File.open_w path w = (Ok tt, saved w path []).
Proof.
  intros H. unfold File.open_w.
  rewrite (bind_ok _ _ _ _ _ (get_disk_run w)).
  destruct (decide (path ∈ unwritable (disk w))); [contradiction | reflexivity].
Qed.

Lemma open_w_denied path w :
  path ∈ unwritable (disk w) ->
  File.open_w path w = (Raise (PermissionError path), w).
Proof.
  intros H. unfold File.open_w.
  rewrite (bind_ok _ _ _ _ _ (get_disk_run w)).
  destruct (decide (path ∈ unwritable (disk w))); [reflexivity | contradiction].
Qed.

Lemma write_ok path s raw w :
  TextIO.written h s = Some raw ->
  File.write h path s w = (Ok tt, saved w path raw).
Proof. intros H. unfold File.write. rewrite H. reflexivity. Qed.

Lemma saved_saved w path raw raw' :
  saved (saved w path raw) path raw' = saved w path raw'.
Proof. unfold saved. simpl. rewrite insert_insert_eq. reflexivity. Qed.

Lemma setCurrentIndex_valid index w :
  Tabs.valid index (tab_widget (window w)) = true ->
  Tabs.setCurrentIndex index w
  = (Ok tt, {| window := {| tab_widget := {| tabs := tabs_of w;
                                             currentIndex := index |} |};
               disk := disk w |}).
Proof.
  intros H. unfold Tabs.setCurrentIndex.
  rewrite (bind_ok _ _ _ _ _ (get_tabs_run w)), H. reflexivity.
Qed.

Lemma addTab_run e name w :
  Tabs.addTab e name w
  = (Ok (Tabs.count (tab_widget (window w))),
     {| window := {| tab_widget :=
          {| tabs := tabs_of w ++ [{| widget := e; label := name |}];
             currentIndex :=
               if Tabs.count (tab_widget (window w)) =? 0 then 0
               else currentIndex (tab_widget (window w)) |} |};
        disk := disk w |}).
Proof. reflexivity. Qed.

(** *** Opening *)

Lemma open_file_ok w path raw content :
  Py.truthy_str path = true ->
  files (disk w) !! path = Some raw ->
  path ∉ unreadable (disk w) ->
  TextIO.read h raw = Some content ->
  open_file h path w = (Ok tt, opened h w path content).
Proof.
  intros Ht Hf Hr Hread.
  unfold open_file. rewrite Ht.
  rewrite (bind_ok _ _ _ _ _ (open_r_ok w path raw Hf Hr)).
  unfold File.read. rewrite Hread.
  rewrite (bind_ok _ _ w content w) by reflexivity.
  rewrite (bind_ok _ _ _ _ _ (addTab_run _ _ w)).
  rewrite setCurrentIndex_valid; [reflexivity |].
  apply valid_spec. unfold Tabs.count, tabs_of. simpl.
  rewrite length_app. simpl. lia.
Qed.

Lemma open_file_cancelled w : open_file h EmptyString w = (Ok tt, w).
Proof. reflexivity. Qed.

Lemma current_opened w path content :
  current (opened h w path content) = Some (opened_editor h path content).
Proof.
  unfold current, opened, Tabs.currentWidget.
  rewrite (bind_ok _ _ _ _ _ (get_tabs_run _)).
  cbn [tab_widget window currentIndex tabs].
  match goal with |- context [Tabs.valid ?i ?tw] =>
    assert (Hv : Tabs.valid i tw = true) end.
  { apply valid_spec. unfold Tabs.count, tabs_of. simpl.
    rewrite length_app. simpl. lia. }
  rewrite Hv. unfold Tabs.count, tabs_of, ret. rewrite Nat2Z.id.
  rewrite lookup_app_r by lia. rewrite Nat.sub_diag. reflexivity.
Qed.

Lemma opened_editor_plain path content :
  Editor.toPlainText h (opened_editor h path content)
  = document_to_plain h (plain_to_document h content).
Proof.
  unfold Editor.toPlainText, opened_editor, Editor.setPlainText. cbv zeta.
  unfold Editor.setTextCursor, Editor.emit_cursorPositionChanged. simpl.
  rewrite emit_blockCountChanged_document. reflexivity.
Qed.

(** [open_file] raises exactly the failure of reading the chosen file. *)
Lemma open_file_result chosen w :
  Py.truthy_str chosen = true ->
  fst (open_file h chosen w)
  = match read_error h (disk w) chosen with
    | Some e => Raise e
    | None => Ok tt
    end.
Proof.
  intros Ht. unfold read_error.
  destruct (files (disk w) !! chosen) as [raw|] eqn:Hf.
  - destruct (decide (chosen ∈ unreadable (disk w))) as [Hin|Hr].
    + unfold open_file. rewrite Ht.
      rewrite (bind_raise _ _ _ _ _ (open_r_denied w chosen raw Hf Hin)).
      reflexivity.
    + destruct (decode h raw) as [t|] eqn:Hd.
      * erewrite open_file_ok; eauto.
        unfold TextIO.read. rewrite Hd. reflexivity.
      * unfold open_file. rewrite Ht.
        rewrite (bind_ok _ _ _ _ _ (open_r_ok w chosen raw Hf Hr)).
        unfold File.read, TextIO.read. rewrite Hd. reflexivity.
  - unfold open_file. rewrite Ht.
    rewrite (bind_raise _ _ _ _ _ (open_r_missing w chosen Hf)). reflexivity.
Qed.

(** *** Saving *)

Lemma save_to_path_ok path w ed raw :
  current w = Some ed ->
  path ∉ unwritable (disk w) ->
  TextIO.written h (Editor.toPlainText h ed) = Some raw ->
  _save_to_path h path w = (Ok tt, saved w path raw).
Proof.
  intros Hc Hw Hraw. unfold _save_to_path.
  rewrite (bind_ok _ _ _ _ _ (currentWidget_current w)), Hc.
  rewrite (bind_ok _ _ _ _ _ (open_w_ok path w Hw)).
  rewrite (bind_ok _ _ _ (Editor.toPlainText h ed) _) by reflexivity.
  rewrite (write_ok path _ raw) by exact Hraw.
  rewrite saved_saved. reflexivity.
Qed.

(** [_save_to_path], reached with a current editor, raises exactly the
    failure of writing that editor's text. *)
Lemma save_to_path_result path w ed :
  current w = Some ed ->
  fst (_save_to_path h path w)
  = match write_error h (disk w) path (Editor.toPlainText h ed) with
    | Some e => Raise e
    | None => Ok tt
    end.
Proof.
  intros Hc. unfold write_error.
  destruct (decide (path ∈ unwritable (disk w))) as [Hin|Hw].
  - unfold _save_to_path.
    rewrite (bind_ok _ _ _ _ _ (currentWidget_current w)).
    rewrite (bind_raise _ _ _ _ _ (open_w_denied path w Hin)). reflexivity.
  - destruct (encode h _) as [raw|] eqn:He.
    + erewrite save_to_path_ok; eauto.
    + unfold _save_to_path.
      rewrite (bind_ok _ _ _ _ _ (currentWidget_current w)), Hc.
      rewrite (bind_ok _ _ _ _ _ (open_w_ok path w Hw)).
      rewrite (bind_ok _ _ _ (Editor.toPlainText h ed) _) by reflexivity.
      unfold File.write, TextIO.written. rewrite He. reflexivity.
Qed.

Lemma save_file_dispatch chosen w ed :
  current w = Some ed ->
  save_file h chosen w
  = if Py.truthy_opt_str (file_path ed)
    then _save_to_path h (default EmptyString (file_path ed)) w
    else save_file_as h chosen w.
Proof.
  intros Hc. unfold save_file.
  rewrite (bind_ok _ _ _ _ _ (currentWidget_current w)), Hc.
  rewrite (bind_ok _ _ w (file_path ed) w) by reflexivity.
  destruct (Py.truthy_opt_str (file_path ed)); reflexivity.
Qed.

(** Both callers of [_save_to_path] stop before it when no tab is open:
    the attribute access on [None] raises, and the disk is untouched. *)
Lemma save_file_no_tab chosen w :
  current w = None ->
  save_file h chosen w = (Raise (AttributeError "file_path"), w).
Proof.
  intros Hc. unfold save_file.
  rewrite (bind_ok _ _ _ _ _ (currentWidget_current w)), Hc. reflexivity.
Qed.

Lemma save_file_as_no_tab chosen w :
  current w = None ->
  Py.truthy_str chosen = true ->
  save_file_as h chosen w = (Raise (AttributeError "file_path"), w).
Proof.
  intros Hc Ht. unfold save_file_as.
  rewrite (bind_ok _ _ _ _ _ (currentWidget_current w)), Hc, Ht. reflexivity.
Qed.

Lemma current_valid w ed :
  current w = Some ed ->
  Tabs.valid (currentIndex (tab_widget (window w))) (tab_widget (window w))
  = true
  /\ widget <$> tabs_of w !! Z.to_nat (currentIndex (tab_widget (window w)))
     = Some ed.
Proof.
  unfold current, Tabs.currentWidget.
  rewrite (bind_ok _ _ _ _ _ (get_tabs_run w)). unfold ret.
  destruct (Tabs.valid _ _); [intros H; split; [reflexivity | exact H] |].
  discriminate.
Qed.

Lemma update_current_run f w ed :
  current w = Some ed ->
  exists w',
    Tabs.update_current f w = (Ok tt, w')
    /\ current w' = Some (f ed)
    /\ disk w' = disk w.
Proof.
  intros Hc. destruct (current_valid w ed Hc) as [Hv Hl].
  unfold Tabs.update_current.
  rewrite (bind_ok _ _ _ _ _ (get_tabs_run w)), Hv.
  eexists. split; [reflexivity |]. split; [| reflexivity].
  unfold current, Tabs.currentWidget.
  rewrite (bind_ok _ _ _ _ _ (get_tabs_run _)). unfold ret, put_tabs.
  cbn [snd tab_widget window currentIndex tabs].
  assert (Hv' : Tabs.valid (currentIndex (tab_widget (window w)))
            {| tabs := alter (fun t => {| widget := f (widget t);
                                          label := label t |})
                         (Z.to_nat (currentIndex (tab_widget (window w))))
                         (tabs (tab_widget (window w)));
               currentIndex := currentIndex (tab_widget (window w)) |} = true).
  { apply valid_spec in Hv. apply valid_spec.
    unfold Tabs.count in *. cbn [tabs]. rewrite length_alter. exact Hv. }
  rewrite Hv'. rewrite list_lookup_alter.
  unfold tabs_of in Hl.
  destruct (tabs (tab_widget (window w)) !! _) as [t|]; [| discriminate].
  destruct (decide _) as [_|Hne]; [| contradiction].
  simpl in *. congruence.
Qed.

Lemma setTabText_ok index name w : fst (Tabs.setTabText index name w) = Ok tt.
Proof.
  unfold Tabs.setTabText.
  rewrite (bind_ok _ _ _ _ _ (get_tabs_run w)).
  destruct (Tabs.valid _ _); reflexivity.
Qed.

Lemma save_file_as_result chosen w ed :
  current w = Some ed ->
  Py.truthy_str chosen = true ->
  fst (save_file_as h chosen w)
  = match write_error h (disk w) chosen (Editor.toPlainText h ed) with
    | Some e => Raise e
    | None => Ok tt
    end.
Proof.
  intros Hc Ht. unfold save_file_as.
  rewrite (bind_ok _ _ _ _ _ (currentWidget_current w)), Hc, Ht.
  rewrite (bind_ok _ _ w tt w) by reflexivity.
  destruct (update_current_run (Editor.set_file_path (Some chosen)) w ed Hc)
    as (w1 & Hrun & Hc1 & Hd1).
  rewrite (bind_ok _ _ _ _ _ Hrun).
  pose proof (save_to_path_result chosen w1 _ Hc1) as Hsave.
  rewrite Hd1 in Hsave.
  change (Editor.toPlainText h (Editor.set_file_path (Some chosen) ed))
    with (Editor.toPlainText h ed) in Hsave.
  destruct (_save_to_path h chosen w1) as [[[]|e] w2] eqn:Hs; simpl in Hsave.
  - rewrite (bind_ok _ _ _ _ _ Hs).
    rewrite (bind_ok _ _ _ _ _ (get_tabs_run w2)).
    rewrite setTabText_ok. exact Hsave.
  - rewrite (bind_raise _ _ _ _ _ Hs). exact Hsave.
Qed.

(** An exception raised by a slot ends the run: the actions after it are
    not performed. *)
Lemma run_stops_at_exception a rest w e w' :
  trigger h a w = (Raise e, w') -> run h (a :: rest) w = (Raise e, w').
Proof. intros H. simpl. apply (bind_raise _ _ _ _ _ H). Qed.

(** C8. Closing the tab at a valid index removes that tab and no other:
    the tabs before it stay where they were, those after it move one place
    down, each with the same editor (document, file path) and label; the
    files are untouched. *)
Theorem close_tab_removes_exactly (w : World) (index : Z) :
  0 <= index < Tabs.count (tab_widget (window w)) ->
  exists w',
    close_tab index w = (Ok tt, w')
    /\ tabs_of w' = take (Z.to_nat index) (tabs_of w)
                    ++ drop (S (Z.to_nat index)) (tabs_of w)
    /\ length (tabs_of w) = S (length (tabs_of w'))
    /\ (forall j : nat, (j < Z.to_nat index)%nat ->
          tabs_of w' !! j = tabs_of w !! j)
    /\ (forall j : nat, (Z.to_nat index <= j)%nat ->
          tabs_of w' !! j = tabs_of w !! S j)
    /\ disk w' = disk w.
Proof.
  intros Hi. apply valid_spec in Hi as Hv.
  unfold close_tab, Tabs.removeTab.
  rewrite (bind_ok _ _ _ _ _ (get_tabs_run w)), Hv. cbv zeta.
  eexists. split; [reflexivity |].
  unfold tabs_of. cbn [tabs tab_widget window disk put_tabs snd].
  unfold Tabs.count in Hi.
  split; [apply delete_take_drop |].
  split; [rewrite length_delete; [lia | apply lookup_lt_is_Some; lia] |].
  split; [intros j Hj; apply list_lookup_delete_lt; exact Hj |].
  split; [intros j Hj; apply list_lookup_delete_ge; exact Hj | reflexivity].
Qed.

(** C9. Nothing handles an I/O failure.  The Open action raises [e] exactly
    when reading the chosen file fails with [e]; [_save_to_path], reached
    with a current editor, raises [e] exactly when writing that editor's text
    fails with [e], and so do the Save and Save As actions that call it. *)
Theorem io_failures_propagate
  (w0 w : World) (chosen path : string) (ed : CodeEditor) (e : exn) :
  Py.truthy_str chosen = true ->
  current w = Some ed ->
  (fst (trigger h (Open chosen) w0) = Raise e
   <-> read_error h (disk w0) chosen = Some e)
  /\ (fst (_save_to_path h path w) = Raise e
      <-> write_error h (disk w) path (Editor.toPlainText h ed) = Some e)
  /\ (fst (trigger h (SaveAs chosen) w) = Raise e
      <-> write_error h (disk w) chosen (Editor.toPlainText h ed) = Some e)
  /\ trigger h (Save chosen) w
     = (if Py.truthy_opt_str (file_path ed)
        then _save_to_path h (default EmptyString (file_path ed)) w
        else trigger h (SaveAs chosen) w).
Proof.
  intros Ht Hc. unfold trigger.
  rewrite (open_file_result chosen w0 Ht).
  rewrite (save_to_path_result path w ed Hc).
  rewrite (save_file_as_result chosen w ed Hc Ht).
  split; [| split; [| split]].
  - destruct (read_error h (disk w0) chosen); split; congruence.
  - destruct (write_error h (disk w) path _); split; congruence.
  - destruct (write_error h (disk w) chosen _); split; congruence.
  - apply save_file_dispatch. exact Hc.
Qed.

(** C2, amended.  A file that can be read and written, whose bytes the
    locale codec decodes and encodes back, whose text is lines joined by the
    platform's line separator (no other carriage return or line feed), and
    whose text the widget hands back unchanged, is written back byte for byte
    by Open followed by Save. *)
Theorem open_then_save_identity (w : World) (path chosen : string)
  (raw : list Byte.byte) (lines : list text) :
  Py.truthy_str path = true ->
  files (disk w) !! path = Some raw ->
  path ∉ unreadable (disk w) ->
  path ∉ unwritable (disk w) ->
  linesep h = [LF] \/ linesep h = [CR; LF] ->
  forallb TextIO.is_line lines = true ->
  decode h raw = Some (TextIO.join (linesep h) lines) ->
  encode h (TextIO.join (linesep h) lines) = Some raw ->
  document_to_plain h (plain_to_document h (TextIO.join [LF] lines))
  = TextIO.join [LF] lines ->
  exists w',
    run h [Open path; Save chosen] w = (Ok tt, w')
    /\ files (disk w') !! path = Some raw
    /\ files (disk w') = files (disk w).
Proof.
  intros Ht Hf Hr Hw Hsep Hlines Hdec Henc Hqt.
  assert (Hread : TextIO.read h raw = Some (TextIO.join [LF] lines)).
  { unfold TextIO.read. rewrite Hdec.
    rewrite universal_newlines_join by assumption. reflexivity. }
  pose proof (open_file_ok w path raw _ Ht Hf Hr Hread) as Hopen.
  set (w1 := opened h w path (TextIO.join [LF] lines)) in *.
  set (ed := opened_editor h path (TextIO.join [LF] lines)).
  assert (Hcur : current w1 = Some ed) by apply current_opened.
  assert (Hwritten : TextIO.written h (Editor.toPlainText h ed) = Some raw).
  { unfold ed. rewrite opened_editor_plain, Hqt. unfold TextIO.written.
    rewrite write_newlines_join by exact Hlines. exact Henc. }
  pose proof (save_to_path_ok path w1 ed raw Hcur Hw Hwritten) as Hsave.
  pose proof (save_file_dispatch chosen w1 ed Hcur) as Hdisp.
  change (file_path ed) with (Some path) in Hdisp.
  simpl in Hdisp. rewrite Ht in Hdisp. rewrite <- Hdisp in Hsave.
  exists (saved w1 path raw). split.
  - unfold run, trigger.
    rewrite (bind_ok _ _ _ _ _ Hopen).
    rewrite (bind_ok _ _ _ _ _ Hsave). reflexivity.
  - simpl. rewrite lookup_insert_eq. split; [reflexivity |].
    apply insert_id. exact Hf.
Qed.

End WindowFacts.

Lemma close_tab_removes_exactly_witness :
  0 <= 0 < Tabs.count (tab_widget (window Posix.two_tabs)) /\
  exists w',
    Window.close_tab 0 Posix.two_tabs = (Ok tt, w')
    /\ tabs_of w' = drop 1 (tabs_of Posix.two_tabs).
Proof.
  assert (Hi : 0 <= 0 < Tabs.count (tab_widget (window Posix.two_tabs)))
    by (vm_compute; split; [discriminate | reflexivity]).
  split; [exact Hi |].
  destruct (close_tab_removes_exactly Posix.two_tabs 0 Hi)
    as (w' & Hrun & Htabs & _).
  exists w'. split; [exact Hrun | exact Htabs].
Defined.

Lemma io_failures_propagate_witness :
  Py.truthy_str "missing.txt" = true /\
  current Posix.two_tabs
  = Some (Editor.init (widget_font_metrics Posix.host)
            (widget_viewport Posix.host)) /\
  fst (Window.trigger Posix.host (Window.Open "missing.txt") Posix.empty_world)
  = Raise (FileNotFoundError "missing.txt").
Proof.
  assert (Ht : Py.truthy_str "missing.txt" = true) by reflexivity.
  assert (Hc : current Posix.two_tabs
               = Some (Editor.init (widget_font_metrics Posix.host)
                         (widget_viewport Posix.host))) by reflexivity.
  split; [exact Ht |]. split; [exact Hc |].
  apply (io_failures_propagate Posix.host Posix.empty_world Posix.two_tabs
           "missing.txt" "notes.txt" _ (FileNotFoundError "missing.txt") Ht Hc).
  reflexivity.
Defined.

Lemma open_then_save_identity_witness :
  files (disk (Posix.notes Posix.lf_file)) !! "notes.txt"
  = Some Posix.lf_file /\
  exists w',
    Window.run Posix.host [Window.Open "notes.txt"; Window.Save ""]
      (Posix.notes Posix.lf_file) = (Ok tt, w')
    /\ files (disk w') !! "notes.txt" = Some Posix.lf_file.
Proof.
  assert (Hf : files (disk (Posix.notes Posix.lf_file)) !! "notes.txt"
               = Some Posix.lf_file) by (vm_compute; reflexivity).
  split; [exact Hf |].
  destruct (open_then_save_identity Posix.host (Posix.notes Posix.lf_file)
              "notes.txt" "" Posix.lf_file [lit "a"; lit "b"; []])
    as (w' & Hrun & Hsame & _).
  - reflexivity.
  - exact Hf.
  - simpl. apply not_elem_of_empty.
  - simpl. apply not_elem_of_empty.
  - left. reflexivity.
  - reflexivity.
  - reflexivity.
  - vm_compute. reflexivity.
  - reflexivity.
  - exists w'. split; [exact Hrun | exact Hsame].
Defined.

(** C2 as stated fails: on a POSIX host a file with a "\r\n" line ending is
    opened and saved without an edit, and comes back with a bare "\n". *)
Lemma open_then_save_rewrites_crlf :
  files (disk (Posix.notes Posix.crlf_file)) !! "notes.txt"
  = Some Posix.crlf_file /\
  exists w',
    Window.run Posix.host [Window.Open "notes.txt"; Window.Save ""]
      (Posix.notes Posix.crlf_file) = (Ok tt, w')
    /\ files (disk w') !! "notes.txt" = Some Posix.lf_file
    /\ files (disk w') !! "notes.txt"
       <> files (disk (Posix.notes Posix.crlf_file)) !! "notes.txt".
Proof.
  split; [vm_compute; reflexivity |].
  eexists. split; [vm_compute; reflexivity |].
  split; [vm_compute; reflexivity |].
  vm_compute. discriminate.
Qed.

(** * Further properties of the code *)

(** ** The digit count of the gutter *)

Section GutterDigits.

Import Gutter.

Variable fm : QFontMetrics.

(** X1. For a block count [N >= 1] the digit count [d] of the gutter is the
    one number with [10^(d-1) <= N < 10^d]. *)
Theorem digit_count_characterised (N d : Z) :
  1 <= N ->
  (digit_count N = d <-> 1 <= d /\ 10 ^ (d - 1) <= N < 10 ^ d).
Proof.
  intros HN.
  destruct (digit_count_bounds N) as (H1 & Hlo & Hhi).
  rewrite Z.max_r in Hlo, Hhi by lia.
  split.
  - intros <-. repeat split; assumption.
  - intros (Hd & Hlo' & Hhi').
    destruct (Z.lt_trichotomy (digit_count N) d) as [Hlt | [Heq | Hgt]].
    + assert (10 ^ digit_count N <= 10 ^ (d - 1))
        by (apply Z.pow_le_mono_r; lia). lia.
    + exact Heq.
    + assert (10 ^ d <= 10 ^ (digit_count N - 1))
        by (apply Z.pow_le_mono_r; lia). lia.
Qed.

(** X2. Ten times as many blocks take exactly one more digit, and a gutter
    wider by exactly one digit width. *)
Theorem ten_times_the_blocks (N : Z) :
  1 <= N ->
  digit_count (10 * N) = digit_count N + 1
  /\ lineNumberAreaWidth fm (10 * N) = lineNumberAreaWidth fm N + digit_width fm.
Proof.
  intros HN.
  assert (Hd : digit_count (10 * N) = digit_count N + 1).
  { unfold digit_count. rewrite !py_max_spec, !Z.max_r by lia.
    rewrite digits_loop_step by lia.
    replace (10 * N / 10) with N
      by (symmetry; rewrite Z.mul_comm; apply Z.div_mul; lia).
    rewrite (digits_loop_len N (1 + 1)), (digits_loop_len N 1). lia. }
  split; [exact Hd |].
  unfold lineNumberAreaWidth. cbv zeta. rewrite Hd. lia.
Qed.


End GutterDigits.

Lemma digit_count_characterised_witness :
  1 <= 250 /\ (Gutter.digit_count 250 = 3
               <-> 1 <= 3 /\ 10 ^ (3 - 1) <= 250 < 10 ^ 3).
Proof.
  assert (H : 1 <= 250) by lia.
  split; [exact H |]. exact (digit_count_characterised 250 3 H).
Defined.

Lemma ten_times_the_blocks_witness :
  1 <= 42 /\
  Gutter.digit_count (10 * 42) = Gutter.digit_count 42 + 1.
Proof.
  assert (H : 1 <= 42) by lia.
  split; [exact H |].
  exact (proj1 (ten_times_the_blocks (Posix.fixed_pitch 9 17) 42 H)).
Defined.


(** ** Painting the gutter *)

Section PaintFacts.

Import Paint.

Variables (rect : QRect) (width height : Z).

Lemma total_cons x xs : total (x :: xs) = x + total xs.
Proof. reflexivity. Qed.

Lemma total_nonneg xs : Forall (fun x => 0 <= x) xs -> 0 <= total xs.
Proof.
  induction 1 as [|x xs Hx _ IH]; [reflexivity |]. rewrite total_cons. lia.
Qed.

Lemma loop_cons block next n top bottom :
  loop rect width height (block :: next) n top bottom
  = if top <=? Rect.bottom rect then
      (if isVisible block && (bottom >=? Rect.top rect)
       then [DrawText 0 top width height (Py.str (n + 1))] else [])
      ++ loop rect width height next (n + 1) bottom
           (bottom + height_of (head next))
    else [].
Proof. reflexivity. Qed.

(** The loop draws some of the blocks, in their order, each at the sum of
    the heights before it. *)
Lemma loop_draws valid n top :
  exists indices : list nat,
    StronglySorted lt indices
    /\ Forall (fun i => exists b,
                 valid !! i = Some b /\ isVisible b = true
                 /\ top + total (map block_height (take i valid))
                    <= Rect.bottom rect
                 /\ Rect.top rect
                    <= top + total (map block_height (take i valid))
                       + block_height b) indices
    /\ loop rect width height valid n top (top + height_of (head valid))
       = map (fun i => DrawText 0
                         (top + total (map block_height (take i valid)))
                         width height (Py.str (n + Z.of_nat i + 1))) indices.
Proof.
  revert n top. induction valid as [|block next IH]; intros n top.
  { exists []. repeat split; constructor. }
  rewrite loop_cons. cbn [head height_of].
  destruct (Z.leb_spec top (Rect.bottom rect)) as [Htop|_];
    [| exists []; repeat split; constructor].
  destruct (IH (n + 1) (top + block_height block))
    as (rest & Hsorted & Hall & Hloop).
  rewrite Hloop.
  assert (Hshift :
    map (fun i => DrawText 0
           (top + block_height block
            + total (map block_height (take i next)))
           width height (Py.str (n + 1 + Z.of_nat i + 1))) rest
    = map (fun i => DrawText 0
             (top + total (map block_height (take i (block :: next))))
             width height (Py.str (n + Z.of_nat i + 1))) (map S rest)).
  { rewrite map_map. apply map_ext. intros i. cbn [take map].
    rewrite total_cons. f_equal; [lia | f_equal; lia]. }
  rewrite Hshift.
  assert (Hsorted' : StronglySorted lt (map S rest)).
  { clear -Hsorted. induction Hsorted as [|i tl _ IHs Hi]; [constructor |].
    cbn. constructor; [exact IHs |].
    rewrite Forall_map. eapply Forall_impl; [exact Hi |].
    intros j Hj. simpl. lia. }
  assert (Hall' : Forall (fun i => exists b,
                    (block :: next) !! i = Some b /\ isVisible b = true
                    /\ top + total (map block_height (take i (block :: next)))
                       <= Rect.bottom rect
                    /\ Rect.top rect
                       <= top + total (map block_height
                                         (take i (block :: next)))
                          + block_height b) (map S rest)).
  { rewrite Forall_map. eapply Forall_impl; [exact Hall |].
    intros i (b & Hb & Hv & Hlo & Hhi). exists b. cbn [take map].
    rewrite total_cons. repeat split; [exact Hb | exact Hv | lia | lia]. }
  destruct (isVisible block) eqn:Hvis; cbn [andb];
    [destruct (Z.geb_spec (top + block_height block) (Rect.top rect))
       as [Hbot|_] |].
  - exists (0%nat :: map S rest). split; [| split].
    + constructor; [exact Hsorted' |]. rewrite Forall_map.
      apply Forall_forall. intros; simpl; lia.
    + constructor; [| exact Hall'].
      exists block. cbn. repeat split; [exact Hvis | lia | lia].
    + cbn [map app take total foldr]. f_equal. f_equal; [lia | f_equal; lia].
  - exists (map S rest). repeat split; assumption.
  - exists (map S rest). repeat split; assumption.
Qed.

(** With heights that are not negative, the loop reaches and draws every
    visible block that meets the rectangle. *)
Lemma loop_reaches valid n top i b :
  Forall (fun blk => 0 <= block_height blk) valid ->
  valid !! i = Some b ->
  isVisible b = true ->
  top + total (map block_height (take i valid)) <= Rect.bottom rect ->
  Rect.top rect
  <= top + total (map block_height (take i valid)) + block_height b ->
  DrawText 0 (top + total (map block_height (take i valid))) width height
    (Py.str (n + Z.of_nat i + 1))
  ∈ loop rect width height valid n top (top + height_of (head valid)).
Proof.
  revert n top i. induction valid as [|block next IH];
    intros n top i Hpos Hi Hvis Hlo Hhi; [discriminate |].
  apply Forall_cons in Hpos as [Hblock Hnext].
  rewrite loop_cons. cbn [head height_of].
  destruct i as [|i].
  - cbn in Hi. injection Hi as ->. cbn [take map] in *.
    unfold total in Hlo, Hhi. cbn in Hlo, Hhi.
    destruct (Z.leb_spec top (Rect.bottom rect)); [| lia].
    rewrite Hvis. cbn [andb].
    destruct (Z.geb_spec (top + block_height b) (Rect.top rect)); [| lia].
    apply elem_of_app. left. apply list_elem_of_singleton.
    unfold total. cbn [foldr]. f_equal; [lia | f_equal; lia].
  - cbn in Hi. cbn [take map] in Hlo, Hhi. rewrite total_cons in Hlo, Hhi.
    assert (0 <= total (map block_height (take i next))).
    { apply total_nonneg. rewrite Forall_map.
      eapply Forall_impl; [| intros x Hx; exact Hx].
      apply Forall_take. exact Hnext. }
    destruct (Z.leb_spec top (Rect.bottom rect)); [| lia].
    apply elem_of_app. right.
    cbn [take map]. rewrite total_cons.
    replace (top + (block_height block
                    + total (map block_height (take i next))))
      with (top + block_height block
            + total (map block_height (take i next))) by lia.
    replace (n + Z.of_nat (S i) + 1) with (n + 1 + Z.of_nat i + 1) by lia.
    apply IH; [exact Hnext | exact Hi | exact Hvis | lia | lia].
Qed.

End PaintFacts.

Section PaintEvent.

Import Paint.

Variables (l : Layout) (rect : QRect) (e : CodeEditor).

Lemma str_injective (n m : Z) : 0 <= n -> 0 <= m -> Py.str n = Py.str m -> n = m.
Proof.
  intros Hn Hm. unfold Py.str.
  destruct (Z.ltb_spec n 0) as [|_]; [lia |].
  destruct (Z.ltb_spec m 0) as [|_]; [lia |].
  intros Heq.
  rewrite <- (int_of_digits_str n Hn), <- (int_of_digits_str m Hm), Heq.
  reflexivity.
Qed.

Lemma line_number_injective (k1 k2 : nat) :
  line_number l e k1 = line_number l e k2 -> k1 = k2.
Proof.
  unfold line_number. intros H. injection H as _ Hs.
  apply str_injective in Hs; lia.
Qed.

(** The event fills the rectangle and then draws the line numbers of some
    blocks, in increasing order: each is a visible block, not before the
    first visible one, whose extent meets the rectangle. *)
Lemma paintEvent_shape :
  exists ks : list nat,
    StronglySorted lt ks
    /\ Forall (fun k => exists b,
                 (firstVisibleBlock l <= k)%nat
                 /\ blocks l !! k = Some b /\ isVisible b = true
                 /\ block_top l k <= Rect.bottom rect
                 /\ Rect.top rect <= block_top l k + block_height b) ks
    /\ lineNumberAreaPaintEvent l rect e
       = FillRect rect 20 20 20 :: map (line_number l e) ks.
Proof.
  destruct (loop_draws rect (Editor.area_width e) (fm_height (fontMetrics e))
              (drop (firstVisibleBlock l) (blocks l))
              (Z.of_nat (firstVisibleBlock l)) (contentTop l))
    as (indices & Hsorted & Hall & Hloop).
  exists (map (fun i => firstVisibleBlock l + i)%nat indices).
  split; [| split].
  - clear -Hsorted. induction Hsorted as [|i tl _ IHs Hi]; [constructor |].
    cbn. constructor; [exact IHs |].
    rewrite Forall_map. eapply Forall_impl; [exact Hi |].
    intros j Hj. simpl. lia.
  - rewrite Forall_map. eapply Forall_impl; [exact Hall |].
    intros i (b & Hb & Hv & Hlo & Hhi). exists b. simpl.
    unfold block_top.
    replace (firstVisibleBlock l + i - firstVisibleBlock l)%nat with i by lia.
    rewrite lookup_drop in Hb.
    repeat split; [lia | exact Hb | exact Hv | exact Hlo | exact Hhi].
  - unfold lineNumberAreaPaintEvent. cbv zeta. rewrite Hloop. f_equal.
    rewrite map_map. apply map_ext. intros i.
    unfold line_number, block_top.
    replace (firstVisibleBlock l + i - firstVisibleBlock l)%nat with i by lia.
    f_equal. f_equal. lia.
Qed.

(** X4. Painting the gutter fills the event rectangle and then draws line
    numbers in increasing order.  Each one is the 1-based number of a visible
    block at or after the first visible block, drawn at that block's top
    (the heights of the blocks before it added up), and the block's extent
    meets the rectangle: its top is not below the rectangle's bottom, its
    bottom not above the rectangle's top. *)
Theorem paintEvent_draws_visible_blocks :
  exists ks : list nat,
    StronglySorted lt ks
    /\ Forall (fun k => exists b,
                 (firstVisibleBlock l <= k)%nat
                 /\ blocks l !! k = Some b /\ isVisible b = true
                 /\ block_top l k <= Rect.bottom rect
                 /\ Rect.top rect <= block_top l k + block_height b) ks
    /\ paintEvent l rect e
       = FillRect rect 20 20 20
         :: map (fun k => DrawText 0 (block_top l k) (Editor.area_width e)
                            (fm_height (fontMetrics e))
                            (Py.str (Z.of_nat k + 1))) ks.
Proof.
  destruct paintEvent_shape as (ks & Hsorted & Hall & Hops).
  exists ks. split; [exact Hsorted |]. split; [exact Hall |].
  unfold paintEvent. rewrite Hops. reflexivity.
Qed.

(** X5. When no block has a negative height, every visible block at or
    after the first visible one whose extent meets the event rectangle has
    its line number drawn. *)
Theorem paintEvent_misses_no_block (k : nat) (b : QTextBlock) :
  Forall (fun blk => 0 <= block_height blk) (blocks l) ->
  (firstVisibleBlock l <= k)%nat ->
  blocks l !! k = Some b ->
  isVisible b = true ->
  block_top l k <= Rect.bottom rect ->
  Rect.top rect <= block_top l k + block_height b ->
  line_number l e k ∈ lineNumberAreaPaintEvent l rect e.
Proof.
  intros Hpos Hk Hb Hvis Hlo Hhi.
  unfold lineNumberAreaPaintEvent. cbv zeta. apply elem_of_cons. right.
  unfold line_number, block_top in *.
  replace (Z.of_nat k + 1)
    with (Z.of_nat (firstVisibleBlock l)
          + Z.of_nat (k - firstVisibleBlock l) + 1) by lia.
  apply loop_reaches with (b := b).
  - apply Forall_drop. exact Hpos.
  - rewrite lookup_drop.
    replace (firstVisibleBlock l + (k - firstVisibleBlock l))%nat with k by lia.
    exact Hb.
  - exact Hvis.
  - exact Hlo.
  - exact Hhi.
Qed.

(** X6. No painting operation is issued twice in one event: in particular
    no line number is drawn twice, and at most one is drawn per block from
    the first visible one on. *)
Theorem paintEvent_no_duplicate :
  NoDup (lineNumberAreaPaintEvent l rect e)
  /\ (length (lineNumberAreaPaintEvent l rect e)
      <= 1 + (length (blocks l) - firstVisibleBlock l))%nat.
Proof.
  destruct paintEvent_shape as (ks & Hsorted & Hall & ->).
  split.
  - apply NoDup_cons. split.
    + intros Hin. apply list_elem_of_In, in_map_iff in Hin.
      destruct Hin as (k & Hk & _). discriminate.
    + clear Hall. induction Hsorted as [|k tl _ IHs Hk]; [constructor |].
      cbn. apply NoDup_cons. split; [| exact IHs].
      intros Hin. apply list_elem_of_In, in_map_iff in Hin.
      destruct Hin as (j & Hj & Hin).
      apply line_number_injective in Hj. subst j.
      rewrite Forall_forall in Hk. apply list_elem_of_In in Hin.
      specialize (Hk _ Hin). lia.
  - cbn [length]. rewrite length_map. apply le_n_S.
    assert (Hrange : Forall (fun k => firstVisibleBlock l <= k
                                      < length (blocks l))%nat ks).
    { eapply Forall_impl; [exact Hall |].
      intros k (b & Hk & Hb & _). apply lookup_lt_Some in Hb. lia. }
    clear Hall. revert Hrange.
    generalize (firstVisibleBlock l) as lo. clear -Hsorted.
    induction Hsorted as [|k tl _ IHs Hk]; intros lo Hrange; [cbn; lia |].
    apply Forall_cons in Hrange as [Hklo Htl].
    cbn [length].
    assert (Htl' : Forall (fun j => S k <= j < length (blocks l))%nat tl).
    { rewrite Forall_forall in *. intros j Hj.
      specialize (Hk j Hj). specialize (Htl j Hj). lia. }
    specialize (IHs (S k) Htl'). lia.
Qed.

End PaintEvent.

Lemma paintEvent_misses_no_block_witness :
  Forall (fun blk => 0 <= block_height blk) (blocks Samples.layout) /\
  Paint.line_number Samples.layout Samples.editor 2
  ∈ Paint.lineNumberAreaPaintEvent Samples.layout Samples.strip Samples.editor.
Proof.
  assert (Hpos : Forall (fun blk => 0 <= block_height blk)
                   (blocks Samples.layout))
    by (repeat constructor; simpl; lia).
  split; [exact Hpos |].
  apply (paintEvent_misses_no_block Samples.layout Samples.strip Samples.editor
           2 {| isVisible := true; block_height := 17 |} Hpos).
  - simpl. lia.
  - reflexivity.
  - reflexivity.
  - vm_compute. discriminate.
  - vm_compute. discriminate.
Defined.

(** ** The editor over a sequence of events *)

Section SessionFacts.

Import Editor Session.

Variable h : Host.

Lemma margin_setTextCursor c e :
  viewportMargins e = (lineNumberAreaWidth e, 0, 0, 0) ->
  viewportMargins (setTextCursor c e)
  = (lineNumberAreaWidth (setTextCursor c e), 0, 0, 0).
Proof. intros H. exact H. Qed.

(** Replacing the document and telling the slots keeps the margin right,
    whether or not the number of blocks changed. *)
Lemma margin_new_document doc e :
  viewportMargins e = (lineNumberAreaWidth e, 0, 0, 0) ->
  viewportMargins (emit_blockCountChanged (blockCount e) (set_document doc e))
  = (lineNumberAreaWidth
       (emit_blockCountChanged (blockCount e) (set_document doc e)), 0, 0, 0).
Proof.
  intros H. unfold emit_blockCountChanged.
  destruct (Z.eqb_spec (blockCount (set_document doc e)) (blockCount e))
    as [Heq|_]; [| reflexivity].
  cbn [viewportMargins set_document]. rewrite H.
  unfold lineNumberAreaWidth. rewrite Heq. reflexivity.
Qed.

Lemma margin_handle ev e :
  viewportMargins e = (lineNumberAreaWidth e, 0, 0, 0) ->
  viewportMargins (handle h ev e)
  = (lineNumberAreaWidth (handle h ev e), 0, 0, 0).
Proof.
  intros H. destruct ev as [c | m | content | rect dy | cr]; cbn [handle].
  - apply margin_setTextCursor. exact H.
  - unfold keyPressEvent. cbn [key]. rewrite Z.eqb_refl. cbv zeta.
    unfold insertText. cbv zeta.
    apply margin_setTextCursor, margin_new_document. exact H.
  - unfold setPlainText. cbv zeta.
    apply margin_setTextCursor, margin_new_document. exact H.
  - unfold updateLineNumberArea.
    destruct (Py.truthy_int dy);
      match goal with |- context [Rect.contains ?r ?v] =>
        destruct (Rect.contains r v) end;
      first [reflexivity | exact H].
  - exact H.
Qed.

Lemma highlight_handle ev e :
  readOnly e = false ->
  extraSelections e = [current_line_selection (cursor e)] ->
  readOnly (handle h ev e) = false
  /\ extraSelections (handle h ev e)
     = [current_line_selection (cursor (handle h ev e))].
Proof.
  intros Hro Hsel. destruct ev as [c | m | content | rect dy | cr];
    cbn [handle].
  - unfold setTextCursor, emit_cursorPositionChanged, highlightCurrentLine,
      isReadOnly. cbn. rewrite Hro. split; reflexivity.
  - unfold keyPressEvent. cbn [key]. rewrite Z.eqb_refl. cbv zeta.
    unfold insertText, setTextCursor, emit_cursorPositionChanged,
      highlightCurrentLine, isReadOnly. cbn.
    rewrite emit_blockCountChanged_readOnly. cbn. rewrite Hro.
    split; reflexivity.
  - unfold setPlainText, setTextCursor, emit_cursorPositionChanged,
      highlightCurrentLine, isReadOnly. cbn.
    rewrite emit_blockCountChanged_readOnly. cbn. rewrite Hro.
    split; reflexivity.
  - unfold updateLineNumberArea.
    destruct (Py.truthy_int dy);
      match goal with |- context [Rect.contains ?r ?v] =>
        destruct (Rect.contains r v) end; split; assumption.
  - split; assumption.
Qed.

Lemma fontMetrics_handle ev e : fontMetrics (handle h ev e) = fontMetrics e.
Proof.
  destruct ev as [c | m | content | rect dy | cr]; cbn [handle].
  - reflexivity.
  - unfold keyPressEvent. cbn [key]. rewrite Z.eqb_refl. cbv zeta.
    unfold insertText, setTextCursor, emit_cursorPositionChanged,
      emit_blockCountChanged. cbn.
    destruct (_ =? _); reflexivity.
  - unfold setPlainText, setTextCursor, emit_cursorPositionChanged,
      emit_blockCountChanged. cbn.
    destruct (_ =? _); reflexivity.
  - unfold updateLineNumberArea.
    destruct (Py.truthy_int dy);
      match goal with |- context [Rect.contains ?r ?v] =>
        destruct (Rect.contains r v) end; reflexivity.
  - reflexivity.
Qed.

(** The margin stays right, and the font metrics the same, over any
    sequence of events. *)
Lemma margin_after events e :
  viewportMargins e = (lineNumberAreaWidth e, 0, 0, 0) ->
  viewportMargins (after h events e)
  = (lineNumberAreaWidth (after h events e), 0, 0, 0)
  /\ fontMetrics (after h events e) = fontMetrics e.
Proof.
  unfold after. revert e. induction events as [|ev evs IH]; intros e Hm;
    [split; [exact Hm | reflexivity] |].
  cbn [fold_left].
  destruct (IH (handle h ev e) (margin_handle ev e Hm)) as [Hm' Hf'].
  split; [exact Hm' |]. rewrite Hf'. apply fontMetrics_handle.
Qed.

(** X7. In every state an editor reaches from its construction (cursor
    moves, Tab presses, a text being set, viewport updates, resizes), the
    viewport's left margin is the gutter width for the current number of
    blocks, and the three other margins are zero. *)
Theorem margin_follows_block_count
  (fm : QFontMetrics) (vp : QRect) (events : list EditorEvent) :
  viewportMargins (after h events (init fm vp))
  = (Gutter.lineNumberAreaWidth fm
       (blockCount (after h events (init fm vp))), 0, 0, 0).
Proof.
  destruct (margin_after events (init fm vp)) as [Hm Hf]; [reflexivity |].
  rewrite Hm. unfold lineNumberAreaWidth. rewrite Hf. reflexivity.
Qed.

(** X9. After a resize the gutter sits at the top-left corner of the
    contents rectangle and spans its height; in every state reached from
    the construction it is then exactly as wide as the viewport's left
    margin and as its own size hint. *)
Theorem resize_fits_gutter_to_margin
  (fm : QFontMetrics) (vp cr : QRect) (events : list EditorEvent) :
  geometry (lineNumberArea (after h (events ++ [Resized cr]) (init fm vp)))
  = {| rx := rx cr; ry := ry cr;
       rwidth := Gutter.lineNumberAreaWidth fm
                   (blockCount (after h events (init fm vp)));
       rheight := rheight cr |}
  /\ viewportMargins (after h (events ++ [Resized cr]) (init fm vp))
     = (area_width (after h (events ++ [Resized cr]) (init fm vp)), 0, 0, 0)
  /\ Paint.sizeHint (after h (events ++ [Resized cr]) (init fm vp))
     = (area_width (after h (events ++ [Resized cr]) (init fm vp)), 0).
Proof.
  destruct (margin_after events (init fm vp)) as [Hm Hf]; [reflexivity |].
  unfold after in *. rewrite fold_left_app. cbn [fold_left handle].
  set (e := fold_left (fun e ev => handle h ev e) events (init fm vp)) in *.
  unfold resizeEvent, setGeometry, area_width, Paint.sizeHint.
  cbn [geometry lineNumberArea set_lineNumberArea viewportMargins rwidth].
  unfold Rect.left, Rect.top.
  split; [unfold lineNumberAreaWidth; rewrite Hf; reflexivity |].
  split; [exact Hm | reflexivity].
Qed.

(** X8. In every state an editor reaches from its construction it is not
    read-only and carries exactly one extra selection: the full-width
    current-line highlight at the position of its cursor, without a
    selection of its own. *)
Theorem highlight_follows_cursor
  (fm : QFontMetrics) (vp : QRect) (events : list EditorEvent) :
  readOnly (after h events (init fm vp)) = false
  /\ extraSelections (after h events (init fm vp))
     = [{| sel_background := lighter 5 Qt_yellow;
           sel_fullWidth := true;
           sel_cursor :=
             {| anchor := position (cursor (after h events (init fm vp)));
                position := position (cursor (after h events (init fm vp)))
             |} |}].
Proof.
  assert (Hinv : forall e,
    readOnly e = false ->
    extraSelections e = [current_line_selection (cursor e)] ->
    readOnly (after h events e) = false
    /\ extraSelections (after h events e)
       = [current_line_selection (cursor (after h events e))]).
  { unfold after. induction events as [|ev evs IH]; intros e Hro Hsel;
      [split; assumption |].
    cbn [fold_left]. destruct (highlight_handle ev e Hro Hsel) as [Hro' Hsel'].
    apply IH; assumption. }
  apply Hinv; reflexivity.
Qed.

Lemma scrolled_snoc rs r :
  scrolled (rs ++ [r])
  = match r with
    | Scroll dx dy => (fst (scrolled rs) + dx, snd (scrolled rs) + dy)
    | Update _ _ _ _ => scrolled rs
    end.
Proof. unfold scrolled. rewrite fold_left_app. reflexivity. Qed.

Lemma viewport_scroll_from (a : Z) (us : list (QRect * Z)) :
  fold_left (fun acc u => acc + snd u) us a
  = a + fold_left (fun acc u => acc + snd u) us 0.
Proof.
  revert a. induction us as [|v vs IH]; intros a; cbn [fold_left]; [lia |].
  rewrite (IH (a + snd v)), (IH (0 + snd v)). lia.
Qed.

Lemma viewport_scroll_cons u us :
  viewport_scroll (u :: us) = snd u + viewport_scroll us.
Proof.
  unfold viewport_scroll. cbn [fold_left].
  rewrite viewport_scroll_from. lia.
Qed.

(** One viewport update asks one thing of the gutter. *)
Lemma updateLineNumberArea_requests rect dy e :
  requests (lineNumberArea (updateLineNumberArea rect dy e))
  = requests (lineNumberArea e)
    ++ [if dy =? 0
        then Update 0 (ry rect) (area_width e) (rheight rect)
        else Scroll 0 dy].
Proof.
  unfold updateLineNumberArea, Py.truthy_int.
  destruct (dy =? 0); simpl;
    match goal with |- context [Rect.contains ?r ?v] =>
      destruct (Rect.contains r v) end; reflexivity.
Qed.

(** X10. Over any sequence of viewport updates the gutter is asked to
    scroll by as much, in all, as the viewport moved vertically, and never
    horizontally; each update adds exactly one request. *)
Theorem gutter_scrolls_with_viewport
  (updates : list (QRect * Z)) (e : CodeEditor) :
  scrolled (requests (lineNumberArea (after_updates updates e)))
  = (fst (scrolled (requests (lineNumberArea e))),
     snd (scrolled (requests (lineNumberArea e))) + viewport_scroll updates)
  /\ length (requests (lineNumberArea (after_updates updates e)))
     = (length (requests (lineNumberArea e)) + length updates)%nat.
Proof.
  unfold after_updates. revert e.
  induction updates as [|[rect dy] us IH]; intros e.
  - cbn. split; [| lia].
    rewrite Z.add_0_r. destruct (scrolled _); reflexivity.
  - cbn [fold_left fst snd].
    destruct (IH (updateLineNumberArea rect dy e)) as [Hs Hl].
    rewrite Hs, Hl, updateLineNumberArea_requests, scrolled_snoc.
    rewrite viewport_scroll_cons, length_app. cbn [snd length].
    split; [| lia].
    destruct (Z.eqb_spec dy 0) as [-> | _]; cbn [fst snd];
      f_equal; lia.
Qed.

End SessionFacts.

(** ** The slots of the main window, one by one *)

Section SlotFacts.

Import Window.

Variable h : Host.

Lemma current_of_tab w : current w = widget <$> current_tab w.
Proof.
  unfold current, current_tab, Tabs.currentWidget.
  rewrite (bind_ok _ _ _ _ _ (get_tabs_run w)). unfold ret.
  destruct (Tabs.valid _ _); reflexivity.
Qed.

Lemma current_tab_valid w t :
  current_tab w = Some t ->
  Tabs.valid (currentIndex (tab_widget (window w))) (tab_widget (window w))
  = true
  /\ tabs_of w !! Z.to_nat (currentIndex (tab_widget (window w))) = Some t.
Proof.
  unfold current_tab. destruct (Tabs.valid _ _); [| discriminate].
  intros H. split; [reflexivity | exact H].
Qed.

Lemma valid_map_current f w :
  Tabs.valid (currentIndex (tab_widget (window (map_current f w))))
    (tab_widget (window (map_current f w)))
  = Tabs.valid (currentIndex (tab_widget (window w))) (tab_widget (window w)).
Proof.
  unfold map_current, Tabs.valid, Tabs.count, tabs_of. cbn.
  rewrite length_alter. reflexivity.
Qed.

Lemma current_tab_map_current f w :
  current_tab (map_current f w) = f <$> current_tab w.
Proof.
  unfold current_tab. rewrite valid_map_current.
  destruct (Tabs.valid _ _); [| reflexivity].
  unfold map_current, tabs_of. cbn [tabs tab_widget window currentIndex].
  rewrite list_lookup_alter.
  destruct (decide _) as [_|Hne]; [reflexivity | contradiction].
Qed.

Lemma tabs_map_current_other f w (j : nat) :
  j <> Z.to_nat (currentIndex (tab_widget (window w))) ->
  tabs_of (map_current f w) !! j = tabs_of w !! j.
Proof.
  intros Hj. unfold map_current, tabs_of. cbn [tabs tab_widget window].
  apply list_lookup_alter_ne. congruence.
Qed.

Lemma update_current_world f w t :
  current_tab w = Some t ->
  Tabs.update_current f w = (Ok tt, map_current (with_editor f) w).
Proof.
  intros Hc. destruct (current_tab_valid w t Hc) as [Hv _].
  unfold Tabs.update_current.
  rewrite (bind_ok _ _ _ _ _ (get_tabs_run w)), Hv. reflexivity.
Qed.

Lemma setTabText_current name w t :
  current_tab w = Some t ->
  Tabs.setTabText (currentIndex (tab_widget (window w))) name w
  = (Ok tt, map_current (with_label name) w).
Proof.
  intros Hc. destruct (current_tab_valid w t Hc) as [Hv _].
  unfold Tabs.setTabText.
  rewrite (bind_ok _ _ _ _ _ (get_tabs_run w)), Hv. reflexivity.
Qed.

Lemma current_saved w path raw : current (saved w path raw) = current w.
Proof. reflexivity. Qed.

Lemma current_tab_saved w path raw :
  current_tab (saved w path raw) = current_tab w.
Proof. reflexivity. Qed.

Lemma new_file_run w : new_file h w = (Ok tt, with_new_tab h w).
Proof.
  unfold new_file. cbv zeta.
  rewrite (bind_ok _ _ _ _ _ (addTab_run _ _ w)).
  rewrite setCurrentIndex_valid; [reflexivity |].
  apply valid_spec. unfold Tabs.count, tabs_of. simpl.
  rewrite length_app. simpl. lia.
Qed.

Lemma current_tab_appended w t d :
  current_tab
    {| window := {| tab_widget :=
         {| tabs := tabs_of w ++ [t];
            currentIndex := Tabs.count (tab_widget (window w)) |} |};
       disk := d |} = Some t.
Proof.
  unfold current_tab. cbn [tab_widget window currentIndex].
  match goal with |- context [Tabs.valid ?i ?tw] =>
    assert (Hv : Tabs.valid i tw = true) end.
  { apply valid_spec. unfold Tabs.count, tabs_of. simpl.
    rewrite length_app. simpl. lia. }
  rewrite Hv. unfold Tabs.count, tabs_of. cbn [tabs tab_widget window].
  rewrite Nat2Z.id, lookup_app_r by lia. rewrite Nat.sub_diag. reflexivity.
Qed.

(** X11. [new_file] never raises: it appends one tab labelled "Untitled"
    and makes it current; its editor is empty, has no file path and is not
    read-only; the tabs that were there and the disk are as before.  A new
    main window starts with exactly that one tab. *)
Theorem new_file_appends_untitled (w : World) :
  exists w' ed,
    new_file h w = (Ok tt, w')
    /\ tabs_of w' = tabs_of w ++ [{| widget := ed; label := "Untitled" |}]
    /\ current w' = Some ed
    /\ document ed = [] /\ file_path ed = None /\ readOnly ed = false
    /\ disk w' = disk w
    /\ tabs_of (snd (init h w)) = [{| widget := ed; label := "Untitled" |}]
    /\ fst (init h w) = Ok tt.
Proof.
  exists (with_new_tab h w),
    (Editor.init (widget_font_metrics h) (widget_viewport h)).
  split; [apply new_file_run |].
  split; [reflexivity |].
  split.
  { rewrite current_of_tab. unfold with_new_tab.
    rewrite current_tab_appended. reflexivity. }
  repeat split; reflexivity.
Qed.

(** What was read in text mode holds no carriage return. *)
Lemma universal_newlines_no_CR (s : text) :
  no_CR (TextIO.universal_newlines s) = true.
Proof.
  assert (Hlen : forall n (t : text), (length t <= n)%nat ->
                   no_CR (TextIO.universal_newlines t) = true).
  { unfold no_CR. induction n as [|n IH]; intros t Ht.
    - destruct t; [reflexivity | simpl in Ht; lia].
    - destruct t as [|c r]; [reflexivity |].
      cbn [TextIO.universal_newlines]. simpl in Ht.
      destruct (N.eqb_spec c CR) as [-> | Hc].
      + destruct r as [|c' r']; [reflexivity |]. simpl in Ht.
        destruct (N.eqb_spec c' LF) as [-> | _]; cbn [forallb];
          rewrite IH by (simpl; lia); reflexivity.
      + cbn [forallb]. rewrite IH by lia.
        apply N.eqb_neq in Hc. rewrite Hc. reflexivity. }
  apply (Hlen (length s)). lia.
Qed.

(** X12. A successful [open_file] appends one tab and makes it current.
    Its label is the base name of the path, its editor carries the path,
    and the text given to the editor is the decoded file with every line
    ending turned into one line feed: no carriage return is left in it.
    The tabs that were there and the disk are as before. *)
Theorem open_file_appends_tab
  (w : World) (path : string) (raw : list Byte.byte) (decoded : text) :
  Py.truthy_str path = true ->
  files (disk w) !! path = Some raw ->
  path ∉ unreadable (disk w) ->
  decode h raw = Some decoded ->
  exists w' ed,
    open_file h path w = (Ok tt, w')
    /\ tabs_of w' = tabs_of w ++ [{| widget := ed; label := basename h path |}]
    /\ current w' = Some ed
    /\ file_path ed = Some path
    /\ document ed
       = plain_to_document h (TextIO.universal_newlines decoded)
    /\ no_CR (TextIO.universal_newlines decoded) = true
    /\ disk w' = disk w.
Proof.
  intros Ht Hf Hr Hd.
  assert (Hread : TextIO.read h raw = Some (TextIO.universal_newlines decoded))
    by (unfold TextIO.read; rewrite Hd; reflexivity).
  exists (opened h w path (TextIO.universal_newlines decoded)),
    (opened_editor h path (TextIO.universal_newlines decoded)).
  split; [apply (open_file_ok h w path raw _ Ht Hf Hr Hread) |].
  split; [reflexivity |].
  split; [apply current_opened |].
  split; [reflexivity |].
  split.
  { unfold opened_editor, Editor.setPlainText. cbv zeta.
    unfold Editor.setTextCursor, Editor.emit_cursorPositionChanged. simpl.
    rewrite emit_blockCountChanged_document. reflexivity. }
  split; [apply universal_newlines_no_CR | reflexivity].
Qed.

(** X13. [open_file] never changes the disk.  When it raises, the window
    is untouched as well: no tab was added.  A cancelled dialog changes
    nothing and raises nothing. *)
Theorem open_file_failure_changes_nothing
  (chosen : string) (w : World) (e : exn) :
  fst (open_file h chosen w) = Raise e ->
  open_file h chosen w = (Raise e, w)
  /\ (forall w0 path, disk (snd (open_file h path w0)) = disk w0)
  /\ (forall w0, open_file h EmptyString w0 = (Ok tt, w0)).
Proof.
  assert (Hdisk : forall w0 path, disk (snd (open_file h path w0)) = disk w0).
  { intros w0 path. unfold open_file.
    destruct (Py.truthy_str path); [| reflexivity].
    destruct (files (disk w0) !! path) as [raw|] eqn:Hf.
    - destruct (decide (path ∈ unreadable (disk w0))) as [Hin|Hr].
      + rewrite (bind_raise _ _ _ _ _ (open_r_denied w0 path raw Hf Hin)).
        reflexivity.
      + rewrite (bind_ok _ _ _ _ _ (open_r_ok w0 path raw Hf Hr)).
        unfold File.read. destruct (TextIO.read h raw) as [content|].
        * rewrite (bind_ok _ _ w0 content w0) by reflexivity.
          rewrite (bind_ok _ _ _ _ _ (addTab_run _ _ w0)).
          unfold Tabs.setCurrentIndex.
          rewrite (bind_ok _ _ _ _ _ (get_tabs_run _)).
          destruct (Tabs.valid _ _); reflexivity.
        * reflexivity.
    - rewrite (bind_raise _ _ _ _ _ (open_r_missing w0 path Hf)).
      reflexivity. }
  intros Hraise. split; [| split; [exact Hdisk | reflexivity]].
  revert Hraise. unfold open_file.
  destruct (Py.truthy_str chosen) eqn:Ht; [| discriminate].
  destruct (files (disk w) !! chosen) as [raw|] eqn:Hf.
  - destruct (decide (chosen ∈ unreadable (disk w))) as [Hin|Hr].
    + rewrite (bind_raise _ _ _ _ _ (open_r_denied w chosen raw Hf Hin)).
      cbn. congruence.
    + rewrite (bind_ok _ _ _ _ _ (open_r_ok w chosen raw Hf Hr)).
      unfold File.read. destruct (TextIO.read h raw) as [content|] eqn:Hread.
      * pose proof (open_file_ok h w chosen raw content Ht Hf Hr Hread) as Hok.
        unfold open_file in Hok. rewrite Ht in Hok.
        rewrite (bind_ok _ _ _ _ _ (open_r_ok w chosen raw Hf Hr)) in Hok.
        unfold File.read in Hok. rewrite Hread in Hok.
        rewrite Hok. discriminate.
      * cbn. congruence.
  - rewrite (bind_raise _ _ _ _ _ (open_r_missing w chosen Hf)).
    cbn. congruence.
Qed.

Lemma save_to_path_unencodable path w ed :
  current w = Some ed ->
  path ∉ unwritable (disk w) ->
  TextIO.written h (Editor.toPlainText h ed) = None ->
  _save_to_path h path w = (Raise UnicodeEncodeError, saved w path []).
Proof.
  intros Hc Hw Hnone. unfold _save_to_path.
  rewrite (bind_ok _ _ _ _ _ (currentWidget_current w)), Hc.
  rewrite (bind_ok _ _ _ _ _ (open_w_ok path w Hw)).
  rewrite (bind_ok _ _ _ (Editor.toPlainText h ed) _) by reflexivity.
  unfold File.write. rewrite Hnone. reflexivity.
Qed.

Lemma save_to_path_denied path w :
  path ∈ unwritable (disk w) ->
  _save_to_path h path w = (Raise (PermissionError path), w).
Proof.
  intros Hin. unfold _save_to_path.
  rewrite (bind_ok _ _ _ _ _ (currentWidget_current w)).
  rewrite (bind_raise _ _ _ _ _ (open_w_denied path w Hin)). reflexivity.
Qed.

Lemma save_file_to_its_path chosen w ed path :
  current w = Some ed ->
  file_path ed = Some path ->
  Py.truthy_str path = true ->
  save_file h chosen w = _save_to_path h path w.
Proof.
  intros Hc Hp Ht. rewrite (save_file_dispatch h chosen w ed Hc), Hp.
  cbn. rewrite Ht. reflexivity.
Qed.

(** X14. Save on a text that the codec cannot encode raises
    [UnicodeEncodeError] after the file has been opened for writing: the
    file is left empty, whatever it held before.  The window is as before. *)
Theorem save_unencodable_empties_file
  (w : World) (ed : CodeEditor) (path chosen : string) :
  current w = Some ed ->
  file_path ed = Some path ->
  Py.truthy_str path = true ->
  path ∉ unwritable (disk w) ->
  encode h (TextIO.write_newlines (linesep h) (Editor.toPlainText h ed))
  = None ->
  exists w',
    trigger h (Save chosen) w = (Raise UnicodeEncodeError, w')
    /\ files (disk w') !! path = Some []
    /\ window w' = window w.
Proof.
  intros Hc Hp Ht Hw Henc. exists (saved w path []).
  split; [| split; [apply lookup_insert_eq | reflexivity]].
  cbn [trigger]. rewrite (save_file_to_its_path chosen w ed path Hc Hp Ht).
  apply (save_to_path_unencodable path w ed Hc Hw Henc).
Qed.

(** X15. Save to a path that may not be written raises [PermissionError]
    and changes nothing: neither the window nor any file. *)
Theorem save_unwritable_changes_nothing
  (w : World) (ed : CodeEditor) (path chosen : string) :
  current w = Some ed ->
  file_path ed = Some path ->
  Py.truthy_str path = true ->
  path ∈ unwritable (disk w) ->
  trigger h (Save chosen) w = (Raise (PermissionError path), w).
Proof.
  intros Hc Hp Ht Hin. cbn [trigger].
  rewrite (save_file_to_its_path chosen w ed path Hc Hp Ht).
  apply save_to_path_denied. exact Hin.
Qed.

(** X16. A successful Save of an editor that has a path writes that one
    file and nothing else: the window and every other file are as before,
    and the dialog result plays no part.  Saving a second time changes
    nothing more. *)
Theorem save_writes_one_file
  (w : World) (ed : CodeEditor) (path chosen chosen' : string)
  (raw : list Byte.byte) :
  current w = Some ed ->
  file_path ed = Some path ->
  Py.truthy_str path = true ->
  path ∉ unwritable (disk w) ->
  encode h (TextIO.write_newlines (linesep h) (Editor.toPlainText h ed))
  = Some raw ->
  exists w',
    trigger h (Save chosen) w = (Ok tt, w')
    /\ window w' = window w
    /\ files (disk w') !! path = Some raw
    /\ (forall other, other <> path ->
          files (disk w') !! other = files (disk w) !! other)
    /\ run h [Save chosen; Save chosen'] w = (Ok tt, w').
Proof.
  intros Hc Hp Ht Hw Henc. exists (saved w path raw).
  assert (Hsave : forall c, trigger h (Save c) w = (Ok tt, saved w path raw)).
  { intros c. cbn [trigger].
    rewrite (save_file_to_its_path c w ed path Hc Hp Ht).
    apply (save_to_path_ok h path w ed raw Hc Hw Henc). }
  split; [apply Hsave |]. split; [reflexivity |].
  split; [apply lookup_insert_eq |].
  split; [intros other Hne; apply lookup_insert_ne; congruence |].
  cbn [run]. rewrite (bind_ok _ _ _ _ _ (Hsave chosen)).
  assert (Hagain : trigger h (Save chosen') (saved w path raw)
                   = (Ok tt, saved w path raw)).
  { cbn [trigger].
    rewrite (save_file_to_its_path chosen' (saved w path raw) ed path
               Hc Hp Ht).
    rewrite (save_to_path_ok h path (saved w path raw) ed raw Hc Hw Henc).
    rewrite saved_saved. reflexivity. }
  rewrite (bind_ok _ _ _ _ _ Hagain). reflexivity.
Qed.

(** The steps of Save As up to the write, for a window with a current
    tab. *)
Lemma save_file_as_steps chosen w t :
  current_tab w = Some t ->
  Py.truthy_str chosen = true ->
  save_file_as h chosen w
  = bind (_save_to_path h chosen)
      (fun _ => tw <- get_tabs ;;
                Tabs.setTabText (currentIndex tw) (basename h chosen))
      (map_current (with_editor (Editor.set_file_path (Some chosen))) w).
Proof.
  intros Hc Ht. unfold save_file_as.
  rewrite (bind_ok _ _ _ _ _ (currentWidget_current w)), Ht.
  rewrite current_of_tab, Hc. cbn [fmap option_fmap option_map Window.attr].
  rewrite (bind_ok _ _ w tt w) by reflexivity.
  rewrite (bind_ok _ _ _ _ _ (update_current_world _ w t Hc)).
  reflexivity.
Qed.

(** X17. A successful Save As gives the current editor the chosen path,
    relabels its tab with the base name of that path and writes the
    editor's text to the file.  No other tab is touched and no tab is added
    or removed. *)
Theorem save_file_as_retargets_current_tab
  (w : World) (t : Tab) (chosen : string) (raw : list Byte.byte) :
  current_tab w = Some t ->
  Py.truthy_str chosen = true ->
  chosen ∉ unwritable (disk w) ->
  encode h (TextIO.write_newlines (linesep h)
              (Editor.toPlainText h (widget t))) = Some raw ->
  exists w',
    trigger h (SaveAs chosen) w = (Ok tt, w')
    /\ current_tab w'
       = Some {| widget := Editor.set_file_path (Some chosen) (widget t);
                 label := basename h chosen |}
    /\ files (disk w') = <[chosen := raw]> (files (disk w))
    /\ length (tabs_of w') = length (tabs_of w)
    /\ currentIndex (tab_widget (window w'))
       = currentIndex (tab_widget (window w))
    /\ (forall j : nat,
          j <> Z.to_nat (currentIndex (tab_widget (window w))) ->
          tabs_of w' !! j = tabs_of w !! j).
Proof.
  intros Hc Ht Hw Henc.
  set (w1 := map_current (with_editor (Editor.set_file_path (Some chosen))) w).
  assert (Hc1 : current_tab w1
                = Some (with_editor (Editor.set_file_path (Some chosen)) t))
    by (unfold w1; rewrite current_tab_map_current, Hc; reflexivity).
  assert (Hcur1 : current w1
                  = Some (Editor.set_file_path (Some chosen) (widget t)))
    by (rewrite current_of_tab, Hc1; reflexivity).
  pose proof (save_to_path_ok h chosen w1 _ raw Hcur1 Hw Henc) as Hsave.
  exists (map_current (with_label (basename h chosen)) (saved w1 chosen raw)).
  split.
  { cbn [trigger]. rewrite (save_file_as_steps chosen w t Hc Ht). fold w1.
    rewrite (bind_ok _ _ _ _ _ Hsave).
    rewrite (bind_ok _ _ _ _ _ (get_tabs_run _)).
    apply (setTabText_current _ (saved w1 chosen raw) _ Hc1). }
  split.
  { rewrite current_tab_map_current, current_tab_saved, Hc1. reflexivity. }
  split; [reflexivity |].
  split.
  { unfold map_current, saved, w1, tabs_of. cbn.
    rewrite !length_alter. reflexivity. }
  split; [reflexivity |].
  intros j Hj.
  rewrite tabs_map_current_other by exact Hj.
  change (tabs_of (saved w1 chosen raw)) with (tabs_of w1).
  unfold w1. apply tabs_map_current_other. exact Hj.
Qed.

(** X18. When Save As cannot write the chosen file it raises
    [PermissionError], but the current editor already carries the chosen
    path; its tab keeps the old label, and nothing is written. *)
Theorem save_file_as_failure_keeps_new_path
  (w : World) (t : Tab) (chosen : string) :
  current_tab w = Some t ->
  Py.truthy_str chosen = true ->
  chosen ∈ unwritable (disk w) ->
  exists w',
    trigger h (SaveAs chosen) w = (Raise (PermissionError chosen), w')
    /\ current_tab w'
       = Some {| widget := Editor.set_file_path (Some chosen) (widget t);
                 label := label t |}
    /\ disk w' = disk w.
Proof.
  intros Hc Ht Hin.
  exists (map_current (with_editor (Editor.set_file_path (Some chosen))) w).
  split; [| split; [| reflexivity]].
  - cbn [trigger]. rewrite (save_file_as_steps chosen w t Hc Ht).
    apply bind_raise. apply save_to_path_denied. exact Hin.
  - rewrite current_tab_map_current, Hc. reflexivity.
Qed.

(** X19. A cancelled Save As does nothing and raises nothing, with or
    without an open tab; so does Save on an editor without a path when the
    dialog it opens is cancelled. *)
Theorem cancelled_save_changes_nothing (w : World) (ed : CodeEditor) :
  current w = Some ed ->
  Py.truthy_opt_str (file_path ed) = false ->
  trigger h (Save EmptyString) w = (Ok tt, w)
  /\ (forall w0, trigger h (SaveAs EmptyString) w0 = (Ok tt, w0)).
Proof.
  intros Hc Hp.
  assert (Hcancel : forall w0, save_file_as h EmptyString w0 = (Ok tt, w0)).
  { intros w0. unfold save_file_as.
    rewrite (bind_ok _ _ _ _ _ (currentWidget_current w0)). reflexivity. }
  split; [| exact Hcancel].
  cbn [trigger]. rewrite (save_file_dispatch h EmptyString w ed Hc), Hp.
  apply Hcancel.
Qed.

(** X20. After a successful Save As, Save writes to the chosen path without
    consulting the dialog, and leaves everything as Save As left it. *)
Theorem save_after_save_as
  (w : World) (t : Tab) (chosen later : string) (raw : list Byte.byte) :
  current_tab w = Some t ->
  Py.truthy_str chosen = true ->
  chosen ∉ unwritable (disk w) ->
  encode h (TextIO.write_newlines (linesep h)
              (Editor.toPlainText h (widget t))) = Some raw ->
  run h [SaveAs chosen; Save later] w = run h [SaveAs chosen] w
  /\ fst (run h [SaveAs chosen; Save later] w) = Ok tt.
Proof.
  intros Hc Ht Hw Henc.
  set (w1 := map_current (with_editor (Editor.set_file_path (Some chosen))) w).
  assert (Hc1 : current_tab w1
                = Some (with_editor (Editor.set_file_path (Some chosen)) t))
    by (unfold w1; rewrite current_tab_map_current, Hc; reflexivity).
  assert (Hcur1 : current w1
                  = Some (Editor.set_file_path (Some chosen) (widget t)))
    by (rewrite current_of_tab, Hc1; reflexivity).
  pose proof (save_to_path_ok h chosen w1 _ raw Hcur1 Hw Henc) as Hsave.
  set (w2 := map_current (with_label (basename h chosen))
               (saved w1 chosen raw)).
  assert (Has : trigger h (SaveAs chosen) w = (Ok tt, w2)).
  { cbn [trigger]. rewrite (save_file_as_steps chosen w t Hc Ht). fold w1.
    rewrite (bind_ok _ _ _ _ _ Hsave).
    rewrite (bind_ok _ _ _ _ _ (get_tabs_run _)).
    apply (setTabText_current _ (saved w1 chosen raw) _ Hc1). }
  assert (Hc2 : current w2
                = Some (Editor.set_file_path (Some chosen) (widget t))).
  { rewrite current_of_tab. unfold w2.
    rewrite current_tab_map_current, current_tab_saved, Hc1. reflexivity. }
  assert (Hsave2 : trigger h (Save later) w2 = (Ok tt, w2)).
  { cbn [trigger].
    rewrite (save_file_to_its_path later w2 _ chosen Hc2 eq_refl Ht).
    rewrite (save_to_path_ok h chosen w2 _ raw Hc2 Hw Henc).
    f_equal. unfold saved, w2, map_current. cbn. f_equal. f_equal.
    apply insert_insert_eq. }
  cbn [run].
  rewrite !(bind_ok _ _ _ _ _ Has), (bind_ok _ _ _ _ _ Hsave2).
  split; reflexivity.
Qed.

(** Written and read back, a text without carriage returns is itself. *)
Lemma read_back_written sep (s : text) :
  sep = [LF] \/ sep = [CR; LF] ->
  no_CR s = true ->
  TextIO.universal_newlines (TextIO.write_newlines sep s) = s.
Proof.
  intros Hsep. unfold no_CR.
  induction s as [|c r IH]; intros Hs; [reflexivity |].
  cbn [forallb] in Hs. apply andb_true_iff in Hs as [Hc Hr].
  apply negb_true_iff, N.eqb_neq in Hc.
  change (TextIO.write_newlines sep (c :: r))
    with ((if N.eqb c LF then sep else [c]) ++ TextIO.write_newlines sep r).
  destruct (N.eqb_spec c LF) as [-> | Hlf].
  - rewrite universal_newlines_sep by exact Hsep. rewrite IH by exact Hr.
    reflexivity.
  - cbn [app TextIO.universal_newlines].
    destruct (N.eqb_spec c CR); [contradiction |].
    rewrite IH by exact Hr. reflexivity.
Qed.

(** X21. Saved and opened again, a text comes back as it was: when the
    editor's text holds no carriage return and the codec decodes what it
    encoded, Save followed by Open of the same path gives a new current tab
    whose editor was given exactly the saved text. *)
Theorem save_then_open_gives_text_back
  (w : World) (ed : CodeEditor) (path chosen : string) (raw : list Byte.byte) :
  current w = Some ed ->
  file_path ed = Some path ->
  Py.truthy_str path = true ->
  path ∉ unwritable (disk w) ->
  path ∉ unreadable (disk w) ->
  linesep h = [LF] \/ linesep h = [CR; LF] ->
  no_CR (Editor.toPlainText h ed) = true ->
  encode h (TextIO.write_newlines (linesep h) (Editor.toPlainText h ed))
  = Some raw ->
  decode h raw
  = Some (TextIO.write_newlines (linesep h) (Editor.toPlainText h ed)) ->
  exists w' ed',
    run h [Save chosen; Open path] w = (Ok tt, w')
    /\ current w' = Some ed'
    /\ document ed' = plain_to_document h (Editor.toPlainText h ed)
    /\ file_path ed' = Some path
    /\ files (disk w') !! path = Some raw.
Proof.
  intros Hc Hp Ht Hw Hr Hsep Hcr Henc Hdec.
  assert (Hsave : trigger h (Save chosen) w = (Ok tt, saved w path raw)).
  { cbn [trigger]. rewrite (save_file_to_its_path chosen w ed path Hc Hp Ht).
    apply (save_to_path_ok h path w ed raw Hc Hw Henc). }
  assert (Hread : TextIO.read h raw = Some (Editor.toPlainText h ed)).
  { unfold TextIO.read. rewrite Hdec, read_back_written by assumption.
    reflexivity. }
  assert (Hopen : trigger h (Open path) (saved w path raw)
                  = (Ok tt, opened h (saved w path raw) path
                              (Editor.toPlainText h ed))).
  { cbn [trigger]. apply (open_file_ok h _ path raw _ Ht); [| exact Hr | exact Hread].
    apply lookup_insert_eq. }
  exists (opened h (saved w path raw) path (Editor.toPlainText h ed)),
    (opened_editor h path (Editor.toPlainText h ed)).
  split.
  { cbn [run]. rewrite (bind_ok _ _ _ _ _ Hsave), (bind_ok _ _ _ _ _ Hopen).
    reflexivity. }
  split; [apply current_opened |].
  split.
  { unfold opened_editor, Editor.setPlainText. cbv zeta.
    unfold Editor.setTextCursor, Editor.emit_cursorPositionChanged. simpl.
    rewrite emit_blockCountChanged_document. reflexivity. }
  split; [reflexivity | apply lookup_insert_eq].
Qed.

Lemma no_tab_no_current w : tabs_of w = [] -> current w = None.
Proof.
  intros Hnil. rewrite current_of_tab. unfold current_tab.
  destruct (Tabs.valid _ _) eqn:Hv; [| reflexivity].
  apply valid_spec in Hv. unfold Tabs.count in Hv. unfold tabs_of in Hnil.
  rewrite Hnil in Hv. simpl in Hv. lia.
Qed.

(** X22. Closing the only tab leaves no current editor: the next Save
    raises [AttributeError] on the missing editor's [file_path], whatever
    the dialog would return, and the disk is untouched. *)
Theorem save_after_last_tab_closed (w : World) (chosen : string) :
  length (tabs_of w) = 1%nat ->
  exists w',
    run h [CloseTab 0; Save chosen] w
    = (Raise (AttributeError "file_path"), w')
    /\ tabs_of w' = []
    /\ current w' = None
    /\ disk w' = disk w.
Proof.
  intros Hone.
  assert (Hv : Tabs.valid 0 (tab_widget (window w)) = true).
  { apply valid_spec. unfold Tabs.count. unfold tabs_of in Hone.
    rewrite Hone. simpl. lia. }
  destruct (close_tab 0 w) as [r w1] eqn:Hclose.
  assert (Hw1 : r = Ok tt /\ tabs_of w1 = [] /\ disk w1 = disk w).
  { revert Hclose. unfold close_tab, Tabs.removeTab.
    rewrite (bind_ok _ _ _ _ _ (get_tabs_run w)), Hv. cbv zeta.
    unfold put_tabs. intros Heq. injection Heq as <- <-.
    unfold tabs_of in *. cbn [tabs tab_widget window disk].
    destruct (tabs (tab_widget (window w))) as [|t [|t' ts]];
      [discriminate | | discriminate].
    repeat split; reflexivity. }
  destruct Hw1 as (-> & Hnil & Hdisk).
  exists w1. split; [| split; [exact Hnil | split; [| exact Hdisk]]].
  - cbn [run trigger]. rewrite (bind_ok _ _ _ _ _ Hclose).
    apply bind_raise. apply save_file_no_tab. apply no_tab_no_current, Hnil.
  - apply no_tab_no_current, Hnil.
Qed.

(** X23. Undo acts on the current editor alone: its tab keeps its label,
    every other tab and the disk are as before.  With no tab open it
    raises [AttributeError] and changes nothing. *)
Theorem undo_acts_on_current_editor
  (toolkit_undo : CodeEditor -> CodeEditor) (w : World) (t : Tab) :
  current_tab w = Some t ->
  exists w',
    undo toolkit_undo w = (Ok tt, w')
    /\ current_tab w'
       = Some {| widget := toolkit_undo (widget t); label := label t |}
    /\ (forall j : nat,
          j <> Z.to_nat (currentIndex (tab_widget (window w))) ->
          tabs_of w' !! j = tabs_of w !! j)
    /\ length (tabs_of w') = length (tabs_of w)
    /\ disk w' = disk w
    /\ (forall w0, current w0 = None ->
          undo toolkit_undo w0 = (Raise (AttributeError "undo"), w0)).
Proof.
  intros Hc. exists (map_current (with_editor toolkit_undo) w).
  split; [| split; [| split; [| split; [| split]]]].
  - unfold undo.
    rewrite (bind_ok _ _ _ _ _ (currentWidget_current w)).
    rewrite current_of_tab, Hc. cbn [fmap option_fmap option_map Window.attr].
    rewrite (bind_ok _ _ w tt w) by reflexivity.
    apply (update_current_world _ w t Hc).
  - rewrite current_tab_map_current, Hc. reflexivity.
  - intros j Hj. apply tabs_map_current_other. exact Hj.
  - unfold map_current, tabs_of. cbn. apply length_alter.
  - reflexivity.
  - intros w0 Hnone. unfold undo.
    rewrite (bind_ok _ _ _ _ _ (currentWidget_current w0)), Hnone.
    reflexivity.
Qed.

(** *** An open tab is current whenever there is one *)

Lemma keeps_ret {A} (a : A) : keeps_current (ret a).
Proof. intros w Hw. exact Hw. Qed.

Lemma keeps_raise {A} (e : exn) : keeps_current (@raise A e).
Proof. intros w Hw. exact Hw. Qed.

Lemma keeps_bind {A B} (m : M A) (f : A -> M B) :
  keeps_current m -> (forall a, keeps_current (f a)) ->
  keeps_current (bind m f).
Proof.
  intros Hm Hf w Hw. unfold bind. specialize (Hm w Hw).
  destruct (m w) as [[a|e] w1]; cbn [snd] in *; [apply Hf; exact Hm | exact Hm].
Qed.

Lemma keeps_same_window {A} (m : M A) :
  (forall w, window (snd (m w)) = window w) -> keeps_current m.
Proof.
  intros Hsame w Hw. unfold has_current, tabs_of in *. rewrite Hsame.
  exact Hw.
Qed.

Lemma keeps_open_r path : keeps_current (File.open_r path).
Proof.
  apply keeps_same_window. intros w. unfold File.open_r.
  rewrite (bind_ok _ _ _ _ _ (get_disk_run w)).
  destruct (files (disk w) !! path); [| reflexivity].
  destruct (decide _); reflexivity.
Qed.

Lemma keeps_read raw : keeps_current (File.read h raw).
Proof.
  apply keeps_same_window. intros w. unfold File.read.
  destruct (TextIO.read h raw); reflexivity.
Qed.

Lemma keeps_open_w path : keeps_current (File.open_w path).
Proof.
  apply keeps_same_window. intros w. unfold File.open_w.
  rewrite (bind_ok _ _ _ _ _ (get_disk_run w)).
  destruct (decide _); reflexivity.
Qed.

Lemma keeps_write path s0 : keeps_current (File.write h path s0).
Proof.
  apply keeps_same_window. intros w. unfold File.write.
  destruct (TextIO.written h s0); reflexivity.
Qed.

Lemma keeps_currentWidget : keeps_current Tabs.currentWidget.
Proof. apply keeps_same_window. reflexivity. Qed.

Lemma keeps_get_tabs : keeps_current get_tabs.
Proof. apply keeps_same_window. reflexivity. Qed.

Lemma keeps_attr {A} name (f : CodeEditor -> A) o :
  keeps_current (Window.attr name f o).
Proof. destruct o; [apply keeps_ret | apply keeps_raise]. Qed.

Lemma keeps_addTab e name : keeps_current (Tabs.addTab e name).
Proof.
  intros w Hw. rewrite addTab_run. cbn [snd]. intros _.
  cbn [tab_widget window currentIndex]. apply valid_spec.
  unfold Tabs.count at 3. cbn [tabs]. rewrite length_app. cbn [length].
  destruct (Z.eqb_spec (Tabs.count (tab_widget (window w))) 0) as [_|Hne];
    [lia |].
  assert (Hv : tabs_of w <> []).
  { unfold tabs_of, Tabs.count in *. destruct (tabs _); [contradiction |].
    discriminate. }
  apply Hw, valid_spec in Hv. unfold Tabs.count, tabs_of in *. lia.
Qed.

Lemma keeps_setCurrentIndex index : keeps_current (Tabs.setCurrentIndex index).
Proof.
  intros w Hw. unfold Tabs.setCurrentIndex.
  rewrite (bind_ok _ _ _ _ _ (get_tabs_run w)).
  destruct (Tabs.valid index (tab_widget (window w))) eqn:Hv; [| exact Hw].
  intros _. exact Hv.
Qed.

Lemma keeps_map_current f w : has_current w -> has_current (map_current f w).
Proof.
  intros Hw Hne. rewrite valid_map_current. apply Hw.
  intros Hnil. apply Hne. unfold map_current, tabs_of in *.
  cbn [tabs tab_widget window]. rewrite Hnil. reflexivity.
Qed.

Lemma keeps_update_current f : keeps_current (Tabs.update_current f).
Proof.
  intros w Hw. unfold Tabs.update_current.
  rewrite (bind_ok _ _ _ _ _ (get_tabs_run w)).
  destruct (Tabs.valid _ _); [| exact Hw].
  apply (keeps_map_current (with_editor f) w Hw).
Qed.

Lemma keeps_setTabText index name : keeps_current (Tabs.setTabText index name).
Proof.
  intros w Hw. unfold Tabs.setTabText.
  rewrite (bind_ok _ _ _ _ _ (get_tabs_run w)).
  destruct (Tabs.valid index _); [| exact Hw].
  intros Hne. cbn [snd put_tabs tab_widget window currentIndex].
  apply valid_spec. unfold Tabs.count. cbn [tabs]. rewrite length_alter.
  apply valid_spec, Hw. intros Hnil. apply Hne.
  unfold tabs_of in *. cbn [tabs tab_widget window snd put_tabs].
  rewrite Hnil. reflexivity.
Qed.

Lemma keeps_removeTab index : keeps_current (Tabs.removeTab index).
Proof.
  intros w Hw. unfold Tabs.removeTab.
  rewrite (bind_ok _ _ _ _ _ (get_tabs_run w)).
  destruct (Tabs.valid index (tab_widget (window w))) eqn:Hv; [| exact Hw].
  cbv zeta. intros Hne.
  cbn [snd put_tabs tab_widget window currentIndex tabs_of tabs] in *.
  unfold tabs_of in Hne. cbn [tabs tab_widget window] in Hne.
  apply valid_spec in Hv.
  assert (Hold : tabs_of w <> []).
  { unfold tabs_of, Tabs.count in *. destruct (tabs _); [simpl in Hv; lia |].
    discriminate. }
  apply Hw, valid_spec in Hold.
  assert (Hlen : (length (tabs (tab_widget (window w)))
                  = S (length (delete (Z.to_nat index)
                                 (tabs (tab_widget (window w))))))%nat).
  { rewrite length_delete; [unfold Tabs.count in Hv; lia |].
    apply lookup_lt_is_Some. unfold Tabs.count in Hv. lia. }
  assert (Hrest : (0 < length (delete (Z.to_nat index)
                                 (tabs (tab_widget (window w)))))%nat).
  { destruct (delete _ _); [contradiction | simpl; lia]. }
  apply valid_spec. unfold Tabs.count in *. cbn [tabs].
  destruct (Z.ltb_spec index (currentIndex (tab_widget (window w)))); [lia |].
  destruct (Z.eqb_spec index (currentIndex (tab_widget (window w)))); [| lia].
  destruct (Z.ltb_spec index
              (Z.of_nat (length (delete (Z.to_nat index)
                                   (tabs (tab_widget (window w)))))));
    lia.
Qed.

Lemma keeps_save_to_path path : keeps_current (_save_to_path h path).
Proof.
  unfold _save_to_path.
  apply keeps_bind; [apply keeps_currentWidget | intros o].
  apply keeps_bind; [apply keeps_open_w | intros _].
  apply keeps_bind; [apply keeps_attr | intros s0]. apply keeps_write.
Qed.

Lemma keeps_save_file_as chosen : keeps_current (save_file_as h chosen).
Proof.
  unfold save_file_as.
  apply keeps_bind; [apply keeps_currentWidget | intros o]. cbv zeta.
  destruct (Py.truthy_str chosen); [| apply keeps_ret].
  apply keeps_bind; [apply keeps_attr | intros _].
  apply keeps_bind; [apply keeps_update_current | intros _].
  apply keeps_bind; [apply keeps_save_to_path | intros _].
  apply keeps_bind; [apply keeps_get_tabs | intros tw].
  apply keeps_setTabText.
Qed.

Lemma keeps_trigger a : keeps_current (trigger h a).
Proof.
  destruct a as [| chosen | chosen | chosen | index]; cbn [trigger].
  - unfold new_file. cbv zeta.
    apply keeps_bind; [apply keeps_addTab | intros i].
    apply keeps_setCurrentIndex.
  - unfold open_file. cbv zeta.
    destruct (Py.truthy_str chosen); [| apply keeps_ret].
    apply keeps_bind; [apply keeps_open_r | intros raw].
    apply keeps_bind; [apply keeps_read | intros content].
    apply keeps_bind; [apply keeps_addTab | intros i].
    apply keeps_setCurrentIndex.
  - unfold save_file.
    apply keeps_bind; [apply keeps_currentWidget | intros o].
    apply keeps_bind; [apply keeps_attr | intros path].
    destruct (Py.truthy_opt_str path);
      [apply keeps_save_to_path | apply keeps_save_file_as].
  - apply keeps_save_file_as.
  - apply keeps_removeTab.
Qed.

Lemma keeps_run actions : keeps_current (run h actions).
Proof.
  induction actions as [|a rest IH]; cbn [run]; [apply keeps_ret |].
  apply keeps_bind; [apply keeps_trigger | intros _; exact IH].
Qed.

Lemma has_current_spec w :
  has_current w -> (current w = None <-> tabs_of w = []).
Proof.
  intros Hw. split; [| apply no_tab_no_current].
  intros Hnone. destruct (tabs_of w) as [|t ts] eqn:Htabs; [reflexivity |].
  exfalso. assert (Hv : tabs_of w <> []) by (rewrite Htabs; discriminate).
  apply Hw in Hv. rewrite current_of_tab in Hnone. unfold current_tab in Hnone.
  rewrite Hv in Hnone. apply valid_spec in Hv. unfold Tabs.count in Hv.
  destruct (tabs_of w !! Z.to_nat (currentIndex (tab_widget (window w))))
    eqn:Hl; [discriminate |].
  apply lookup_ge_None in Hl. unfold tabs_of in Hl. lia.
Qed.

(** X24. From the start of the program on, whatever the user does (New,
    Open, Save, Save As, closing tabs) and whether or not an action raises,
    there is a current editor exactly when there is a tab: Save and Save As
    find no editor only after the last tab was closed. *)
Theorem current_editor_iff_tab (w0 : World) (actions : list Action) :
  current (snd (run h actions (snd (init h w0)))) = None
  <-> tabs_of (snd (run h actions (snd (init h w0)))) = [].
Proof.
  apply has_current_spec, keeps_run.
  unfold init.
  assert (Hstart : has_current
            (snd (put_tabs {| tabs := []; currentIndex := -1 |} w0)))
    by (intros Hne; exfalso; apply Hne; reflexivity).
  assert (Hnew : keeps_current (new_file h)) by apply (keeps_trigger New).
  unfold bind. cbn [put_tabs]. cbn [put_tabs snd] in Hstart.
  apply Hnew. exact Hstart.
Qed.

End SlotFacts.

(** ** The slots at work on concrete windows *)

Lemma open_file_appends_tab_witness :
  Py.truthy_str "notes.txt" = true /\
  files (disk (Posix.notes Posix.crlf_file)) !! "notes.txt"
  = Some Posix.crlf_file /\
  exists w' ed,
    Window.open_file Posix.host "notes.txt" (Posix.notes Posix.crlf_file)
    = (Ok tt, w')
    /\ current w' = Some ed
    /\ document ed = [97; LF; 98; LF]%N.
Proof.
  assert (Ht : Py.truthy_str "notes.txt" = true) by reflexivity.
  assert (Hf : files (disk (Posix.notes Posix.crlf_file)) !! "notes.txt"
               = Some Posix.crlf_file) by (vm_compute; reflexivity).
  split; [exact Ht |]. split; [exact Hf |].
  destruct (open_file_appends_tab Posix.host (Posix.notes Posix.crlf_file)
              "notes.txt" Posix.crlf_file (map Byte.to_N Posix.crlf_file)
              Ht Hf)
    as (w' & ed & Hrun & _ & Hcur & _ & Hdoc & _).
  - simpl. apply not_elem_of_empty.
  - reflexivity.
  - exists w', ed. split; [exact Hrun |]. split; [exact Hcur | exact Hdoc].
Defined.

Lemma open_file_failure_changes_nothing_witness :
  fst (Window.open_file Posix.host "missing.txt" Posix.two_tabs)
  = Raise (FileNotFoundError "missing.txt") /\
  Window.open_file Posix.host "missing.txt" Posix.two_tabs
  = (Raise (FileNotFoundError "missing.txt"), Posix.two_tabs).
Proof.
  assert (Hr : fst (Window.open_file Posix.host "missing.txt" Posix.two_tabs)
               = Raise (FileNotFoundError "missing.txt")) by reflexivity.
  split; [exact Hr |].
  exact (proj1 (open_file_failure_changes_nothing Posix.host "missing.txt"
                  Posix.two_tabs (FileNotFoundError "missing.txt") Hr)).
Defined.

Lemma save_unencodable_empties_file_witness :
  files (disk Samples.unencodable) !! "notes.txt" = Some Posix.lf_file /\
  exists w',
    Window.trigger Posix.host (Window.Save "") Samples.unencodable
    = (Raise UnicodeEncodeError, w')
    /\ files (disk w') !! "notes.txt" = Some [].
Proof.
  split; [vm_compute; reflexivity |].
  destruct (save_unencodable_empties_file Posix.host Samples.unencodable
              (Editor.set_file_path (Some "notes.txt")
                 (Posix.editor_with [8364%N]
                    {| anchor := 0; position := 0 |} false))
              "notes.txt" "")
    as (w' & Hrun & Hempty & _).
  - reflexivity.
  - reflexivity.
  - reflexivity.
  - simpl. apply not_elem_of_empty.
  - reflexivity.
  - exists w'. split; [exact Hrun | exact Hempty].
Defined.

Lemma save_unwritable_changes_nothing_witness :
  "notes.txt" ∈ unwritable (disk Samples.write_protected) /\
  Window.trigger Posix.host (Window.Save "") Samples.write_protected
  = (Raise (PermissionError "notes.txt"), Samples.write_protected).
Proof.
  assert (Hin : "notes.txt" ∈ unwritable (disk Samples.write_protected))
    by (simpl; apply elem_of_singleton; reflexivity).
  split; [exact Hin |].
  apply (save_unwritable_changes_nothing Posix.host Samples.write_protected
           (Editor.set_file_path (Some "notes.txt")
              (Posix.editor_with (lit "hi")
                 {| anchor := 0; position := 0 |} false))
           "notes.txt" "").
  - reflexivity.
  - reflexivity.
  - reflexivity.
  - exact Hin.
Defined.

Lemma save_writes_one_file_witness :
  current Samples.titled
  = Some (Editor.set_file_path (Some "notes.txt")
            (Posix.editor_with (lit "hi")
               {| anchor := 0; position := 0 |} false)) /\
  exists w',
    Window.trigger Posix.host (Window.Save "") Samples.titled = (Ok tt, w')
    /\ files (disk w') !! "notes.txt" = Some [Byte.x68; Byte.x69].
Proof.
  assert (Hc : current Samples.titled
               = Some (Editor.set_file_path (Some "notes.txt")
                         (Posix.editor_with (lit "hi")
                            {| anchor := 0; position := 0 |} false)))
    by reflexivity.
  split; [exact Hc |].
  destruct (save_writes_one_file Posix.host Samples.titled _ "notes.txt"
              "" "" [Byte.x68; Byte.x69] Hc)
    as (w' & Hrun & _ & Hfile & _).
  - reflexivity.
  - reflexivity.
  - simpl. apply not_elem_of_empty.
  - reflexivity.
  - exists w'. split; [exact Hrun | exact Hfile].
Defined.

Lemma save_file_as_retargets_current_tab_witness :
  Py.truthy_str "copy.txt" = true /\
  exists w' t',
    Window.trigger Posix.host (Window.SaveAs "copy.txt") Samples.titled
    = (Ok tt, w')
    /\ current_tab w' = Some t'
    /\ label t' = "copy.txt"%string
    /\ file_path (widget t') = Some "copy.txt"%string.
Proof.
  split; [reflexivity |].
  destruct (save_file_as_retargets_current_tab Posix.host Samples.titled
              {| widget := Editor.set_file_path (Some "notes.txt")
                             (Posix.editor_with (lit "hi")
                                {| anchor := 0; position := 0 |} false);
                 label := "notes.txt" |}
              "copy.txt" [Byte.x68; Byte.x69])
    as (w' & Hrun & Hcur & _).
  - reflexivity.
  - reflexivity.
  - simpl. apply not_elem_of_empty.
  - reflexivity.
  - eexists w', _. split; [exact Hrun |]. split; [exact Hcur |].
    split; reflexivity.
Defined.

Lemma save_file_as_failure_keeps_new_path_witness :
  "locked.txt" ∈ unwritable (disk Samples.locked) /\
  exists w' t',
    Window.trigger Posix.host (Window.SaveAs "locked.txt") Samples.locked
    = (Raise (PermissionError "locked.txt"), w')
    /\ current_tab w' = Some t'
    /\ label t' = "notes.txt"%string
    /\ file_path (widget t') = Some "locked.txt"%string.
Proof.
  assert (Hin : "locked.txt" ∈ unwritable (disk Samples.locked))
    by (simpl; apply elem_of_singleton; reflexivity).
  split; [exact Hin |].
  destruct (save_file_as_failure_keeps_new_path Posix.host Samples.locked
              {| widget := Editor.set_file_path (Some "notes.txt")
                             (Posix.editor_with (lit "hi")
                                {| anchor := 0; position := 0 |} false);
                 label := "notes.txt" |}
              "locked.txt")
    as (w' & Hrun & Hcur & _).
  - reflexivity.
  - reflexivity.
  - exact Hin.
  - eexists w', _. split; [exact Hrun |]. split; [exact Hcur |].
    split; reflexivity.
Defined.

Lemma cancelled_save_changes_nothing_witness :
  current Posix.two_tabs
  = Some (Editor.init (widget_font_metrics Posix.host)
            (widget_viewport Posix.host)) /\
  Window.trigger Posix.host (Window.Save "") Posix.two_tabs
  = (Ok tt, Posix.two_tabs).
Proof.
  assert (Hc : current Posix.two_tabs
               = Some (Editor.init (widget_font_metrics Posix.host)
                         (widget_viewport Posix.host))) by reflexivity.
  split; [exact Hc |].
  exact (proj1 (cancelled_save_changes_nothing Posix.host Posix.two_tabs _
                  Hc eq_refl)).
Defined.

Lemma save_after_save_as_witness :
  Py.truthy_str "copy.txt" = true /\
  Window.run Posix.host [Window.SaveAs "copy.txt"; Window.Save "other.txt"]
    Samples.titled
  = Window.run Posix.host [Window.SaveAs "copy.txt"] Samples.titled.
Proof.
  split; [reflexivity |].
  apply (save_after_save_as Posix.host Samples.titled
           {| widget := Editor.set_file_path (Some "notes.txt")
                          (Posix.editor_with (lit "hi")
                             {| anchor := 0; position := 0 |} false);
              label := "notes.txt" |}
           "copy.txt" "other.txt" [Byte.x68; Byte.x69]).
  - reflexivity.
  - reflexivity.
  - simpl. apply not_elem_of_empty.
  - reflexivity.
Defined.

Lemma save_then_open_gives_text_back_witness :
  no_CR (lit "hi") = true /\
  exists w' ed',
    Window.run Posix.host [Window.Save ""; Window.Open "notes.txt"]
      Samples.titled = (Ok tt, w')
    /\ current w' = Some ed'
    /\ document ed' = lit "hi".
Proof.
  split; [reflexivity |].
  destruct (save_then_open_gives_text_back Posix.host Samples.titled
              (Editor.set_file_path (Some "notes.txt")
                 (Posix.editor_with (lit "hi")
                    {| anchor := 0; position := 0 |} false))
              "notes.txt" "" [Byte.x68; Byte.x69])
    as (w' & ed' & Hrun & Hcur & Hdoc & _).
  - reflexivity.
  - reflexivity.
  - reflexivity.
  - simpl. apply not_elem_of_empty.
  - simpl. apply not_elem_of_empty.
  - left. reflexivity.
  - reflexivity.
  - reflexivity.
  - reflexivity.
  - exists w', ed'. split; [exact Hrun |]. split; [exact Hcur | exact Hdoc].
Defined.

Lemma save_after_last_tab_closed_witness :
  length (tabs_of Samples.titled) = 1%nat /\
  exists w',
    Window.run Posix.host [Window.CloseTab 0; Window.Save ""] Samples.titled
    = (Raise (AttributeError "file_path"), w')
    /\ tabs_of w' = [].
Proof.
  split; [reflexivity |].
  destruct (save_after_last_tab_closed Posix.host Samples.titled ""
              eq_refl) as (w' & Hrun & Hnil & _).
  exists w'. split; [exact Hrun | exact Hnil].
Defined.

Lemma undo_acts_on_current_editor_witness :
  current_tab Samples.titled
  = Some {| widget := Editor.set_file_path (Some "notes.txt")
                        (Posix.editor_with (lit "hi")
                           {| anchor := 0; position := 0 |} false);
            label := "notes.txt" |} /\
  exists w' t',
    undo (Editor.set_document []) Samples.titled = (Ok tt, w')
    /\ current_tab w' = Some t'
    /\ document (widget t') = []
    /\ label t' = "notes.txt"%string.
Proof.
  assert (Hc : current_tab Samples.titled
               = Some {| widget := Editor.set_file_path (Some "notes.txt")
                                     (Posix.editor_with (lit "hi")
                                        {| anchor := 0; position := 0 |}
                                        false);
                         label := "notes.txt" |}) by reflexivity.
  split; [exact Hc |].
  destruct (undo_acts_on_current_editor (Editor.set_document [])
              Samples.titled _ Hc) as (w' & Hrun & Hcur & _).
  eexists w', _. split; [exact Hrun |]. split; [exact Hcur |].
  split; reflexivity.
Defined.
